(** * MediaData: audio / video / raw sample containers

    A shallow embedding of dom/media/MediaData.cpp (AudioData, VideoData,
    MediaRawData) together with the properties stated about it.

    Conventions.
    - C++ fixed-width integers are values of [Z]; every truncation the code
      performs (uint32_t members, size_t products) is written out with
      [to_uint32] / [to_size_t].
    - [CheckedInt<T>] is [option Z]: [None] is the invalid (overflowed) state.
    - A call ends in one of four ways, see [Completion]: it returns a value,
      it hands an error value ([MediaResult]) back to the caller, it hits a
      release assertion and the process aborts, or it runs into undefined
      behaviour, of which nothing more is said.
    - [MOZ_ASSERT] and [MOZ_DIAGNOSTIC_ASSERT] are compiled out of release
      builds; they are not part of the functions below and appear, where a
      statement needs them, as hypotheses. *)

From Stdlib Require Import ZArith List String Bool Lia QArith Lqa.
Import ListNotations.
Open Scope Z_scope.

(* ------------------------------------------------------------------ *)
(** ** Machine integers *)

Definition UINT32_MAX : Z := 2 ^ 32 - 1.
Definition INT32_MIN : Z := - 2 ^ 31.
Definition INT32_MAX : Z := 2 ^ 31 - 1.
Definition INT64_MIN : Z := - 2 ^ 63.
Definition INT64_MAX : Z := 2 ^ 63 - 1.

Definition to_uint32 (z : Z) : Z := z mod 2 ^ 32.
Definition to_size_t (z : Z) : Z := z mod 2 ^ 64.

Definition is_uint32 (z : Z) : Prop := 0 <= z <= UINT32_MAX.
Definition is_int32 (z : Z) : Prop := INT32_MIN <= z <= INT32_MAX.

Module Checked.

(** Modelled from the spec: mfbt's [CheckedInt<T>] (its header is not among
    the sources).  The spec speaks of "checked (overflow-safe) arithmetic":
    a value that leaves the range of [T] becomes invalid, and an operation
    on an invalid value is invalid. *)
Definition t := option Z.

Definition make (lo hi v : Z) : t :=
  if (lo <=? v) && (v <=? hi) then Some v else None.

Definition add (lo hi : Z) (a b : t) : t :=
  match a, b with
  | Some x, Some y => make lo hi (x + y)
  | _, _ => None
  end.

Definition sub (lo hi : Z) (a b : t) : t :=
  match a, b with
  | Some x, Some y => make lo hi (x - y)
  | _, _ => None
  end.

Definition isValid (a : t) : bool :=
  match a with Some _ => true | None => false end.

End Checked.

Definition CheckedUint32 (v : Z) : Checked.t := Checked.make 0 UINT32_MAX v.
Definition CheckedInt64 (v : Z) : Checked.t := Checked.make INT64_MIN INT64_MAX v.

(* ------------------------------------------------------------------ *)
(** ** Results *)

Inductive nsresult : Type :=
| NS_OK
| NS_ERROR_INVALID_ARG
| NS_ERROR_OUT_OF_MEMORY
| NS_ERROR_FAILURE.

Definition NS_FAILED (r : nsresult) : bool :=
  match r with NS_OK => false | _ => true end.

Record MediaResult : Type := mkMediaResult {
  Code : nsresult;
  Message : string
}.

(** How a call ends. [Failed] is an error value given back to the caller
    ([Err(r)] of a [Result], or a null pointer with the logged reason);
    [Aborted] is a failed [MOZ_RELEASE_ASSERT]; [Undefined] is undefined
    behaviour of C++ (a division by zero), named by the expression that has
    it: the code gives the call no outcome there. *)
Inductive Completion (A : Type) : Type :=
| Done (a : A)
| Failed (r : MediaResult)
| Aborted (why : string)
| Undefined (what : string).

Arguments Done {A} a.
Arguments Failed {A} r.
Arguments Aborted {A} why.
Arguments Undefined {A} what.

Definition is_aborted {A} (c : Completion A) : bool :=
  match c with Aborted _ => true | _ => false end.

(* ------------------------------------------------------------------ *)
(** ** media::TimeUnit and media::TimeInterval *)

Module TimeUnit.

(** Modelled from the spec: [media::TimeUnit] is declared in TimeUnits.h,
    which is not among the sources.  The spec describes time as "rational
    (tick-based) arithmetic" that is exact ("no floating drift") and whose
    overflow is detected ("time arithmetic overflows").  A time is a checked
    64-bit tick count over a base (ticks per second); [TimeUnit(ticks, base)]
    is [make].  Sums and differences of two times of one base stay in that
    base; otherwise they are taken exactly over the product of the bases.
    Comparisons are exact comparisons of the fractions.  [ToTicksAtRate]
    truncates towards zero as C++ division does. *)
Record t : Type := mk {
  mTicks : Checked.t;
  mBase : Z
}.

Definition USECS_PER_S : Z := 1000000.

Definition make (ticks base : Z) : t := mk (CheckedInt64 ticks) base.
Definition Zero : t := make 0 USECS_PER_S.
Definition Invalid : t := mk None USECS_PER_S.

Definition IsValid (a : t) : bool := Checked.isValid (mTicks a).

(** [mTicks.value()]; the callers below only read it of valid times. *)
Definition value (a : t) : Z :=
  match mTicks a with Some v => v | None => 0 end.

Definition IsZero (a : t) : bool := value a =? 0.
Definition IsNegative (a : t) : bool := value a <? 0.
Definition IsBase (a : t) (aBase : Z) : bool := aBase =? mBase a.

Definition combine (op : Z -> Z -> Z) (a b : t) : t :=
  if mBase a =? mBase b then
    match mTicks a, mTicks b with
    | Some x, Some y => mk (CheckedInt64 (op x y)) (mBase a)
    | _, _ => mk None (mBase a)
    end
  else
    match mTicks a, mTicks b, CheckedInt64 (mBase a * mBase b) with
    | Some x, Some y, Some _ =>
        mk (CheckedInt64 (op (x * mBase b) (y * mBase a))) (mBase a * mBase b)
    | _, _, _ => mk None (mBase a * mBase b)
    end.

Definition add : t -> t -> t := combine Z.add.
Definition sub : t -> t -> t := combine Z.sub.

Definition ltb (a b : t) : bool := value a * mBase b <? value b * mBase a.
Definition gtb (a b : t) : bool := ltb b a.
Definition leb (a b : t) : bool := negb (gtb a b).
Definition eqb (a b : t) : bool := value a * mBase b =? value b * mBase a.

Definition ToTicksAtRate (a : t) (aRate : Z) : Z :=
  if aRate =? mBase a then value a
  else Z.quot (value a * aRate) (mBase a).

(** The fraction a time denotes (its base is positive). *)
Definition toQ (a : t) : Q := Qmake (value a) (Z.to_pos (mBase a)).

End TimeUnit.

(** Modelled from the spec: [media::TimeInterval] (TimeUnits.h, not among the
    sources), "the sub-interval of a frame's original timeline [...]
    expressed in absolute time": a start and an end. *)
Record TimeInterval : Type := mkTimeInterval {
  mStart : TimeUnit.t;
  mEnd : TimeUnit.t
}.

(* ------------------------------------------------------------------ *)
(** ** AlignedBuffer *)

Module AlignedBuffer.

(** Modelled from the spec: [AlignedBuffer<T>] (declared in MediaData.h, not
    among the sources) is the "contiguous interleaved sample buffer" a frame
    owns.  It is a list of elements; a null or empty buffer converts to
    [false]; moving out of a buffer leaves it empty ("buffer transfer
    invalidates the source frame's data pointer, decrementing its length to
    zero").  Growing a buffer allocates, and the allocation can fail:
    [aAllocOk] is what the allocator answers. *)
Definition t (T : Type) : Type := list T.

Definition Length {T} (b : t T) : Z := Z.of_nat (List.length b).

Definition to_bool {T} (b : t T) : bool :=
  match b with [] => false | _ :: _ => true end.

Definition PopFront {T} (b : t T) (aCount : Z) : t T :=
  skipn (Z.to_nat aCount) b.

(** [SetLength]: the new buffer and whether the call succeeded. *)
Definition SetLength {T} (zero : T) (aAllocOk : bool) (b : t T) (aLength : Z)
  : t T * bool :=
  if aLength <=? Length b then (firstn (Z.to_nat aLength) b, true)
  else if aAllocOk then
    (b ++ repeat zero (Z.to_nat (aLength - Length b)), true)
  else (b, false).

(** [Append] onto a buffer: the new buffer and whether the call succeeded. *)
Definition Append {T} (aAllocOk : bool) (b : t T) (aData : list T)
  : t T * bool :=
  if aAllocOk then (b ++ aData, true) else (b, false).

End AlignedBuffer.

(* ------------------------------------------------------------------ *)
(** ** MediaData, the base of every sample *)

(** Modelled from the spec: the base class [MediaData] is declared in
    MediaData.h (not among the sources).  Its members are the ones
    the spec lists for a media sample: "offset (byte position in source
    stream), presentation timestamp, duration, keyframe flag, decode
    timecode", and [GetEndTime] is "endTime = timestamp + duration".  The
    constructor used by AudioData and VideoData stores offset, timestamp and
    duration, starts the timecode at the timestamp and clears the keyframe
    flag. *)
Record MediaData : Type := mkMediaData {
  mOffset : Z;
  mTime : TimeUnit.t;
  mTimecode : TimeUnit.t;
  mDuration : TimeUnit.t;
  mKeyframe : bool
}.

Definition MediaData_ctor (aOffset : Z) (aTimestamp aDuration : TimeUnit.t)
  : MediaData :=
  mkMediaData aOffset aTimestamp aTimestamp aDuration false.

Definition GetEndTime (m : MediaData) : TimeUnit.t :=
  TimeUnit.add (mTime m) (mDuration m).

Definition set_mTime (m : MediaData) (v : TimeUnit.t) : MediaData :=
  mkMediaData (mOffset m) v (mTimecode m) (mDuration m) (mKeyframe m).

Definition set_mDuration (m : MediaData) (v : TimeUnit.t) : MediaData :=
  mkMediaData (mOffset m) (mTime m) (mTimecode m) v (mKeyframe m).

Definition set_mTimecode (m : MediaData) (v : TimeUnit.t) : MediaData :=
  mkMediaData (mOffset m) (mTime m) v (mDuration m) (mKeyframe m).

Definition set_mKeyframe (m : MediaData) (v : bool) : MediaData :=
  mkMediaData (mOffset m) (mTime m) (mTimecode m) (mDuration m) v.

(* ------------------------------------------------------------------ *)
(** ** AudioData *)

(** Samples are opaque here; a sample is represented by an integer. *)
Definition AudioDataValue : Type := Z.
Definition AlignedAudioBuffer : Type := AlignedBuffer.t AudioDataValue.

(** [Span<AudioDataValue>]: where the view starts inside the frame's buffer
    ([None] is a null pointer) and how many samples it spans. *)
Record Span : Type := mkSpan {
  elements : option Z;
  extent : Z
}.

Module AudioData.

Record t : Type := mk {
  base : MediaData;
  mChannels : Z;                     (* uint32_t *)
  mChannelMap : Z;                   (* uint32_t *)
  mRate : Z;                         (* uint32_t *)
  mOriginalTime : TimeUnit.t;
  mTrimWindow : option TimeInterval; (* Maybe<TimeInterval> *)
  mAudioData : AlignedAudioBuffer;
  mFrames : Z;                       (* uint32_t *)
  mDataOffset : Z                    (* size_t *)
}.

(** [AudioData::AudioData].  The member initialiser of [mFrames] divides the
    buffer length by [aChannels] before the body asserts that [aChannels] is
    not zero: with no channel the division by zero comes first, and it is
    undefined behaviour; the assertion on the channels is never the first
    thing to fail. *)
Definition ctor (aOffset : Z) (aTime : TimeUnit.t) (aData : AlignedAudioBuffer)
    (aChannels aRate aChannelMap : Z) : Completion t :=
  if aChannels =? 0 then
    Undefined "mAudioData.Length() / aChannels"
  else if aRate =? 0 then
    Aborted "Can't create an AudioData with a sample-rate of 0."
  else
    let frames := to_uint32 (AlignedBuffer.Length aData / aChannels) in
    Done (mk (set_mDuration (MediaData_ctor aOffset aTime TimeUnit.Zero)
                            (TimeUnit.make frames aRate))
             aChannels aChannelMap aRate aTime None aData frames 0).

(** [AudioData::GetAdjustedData], as an offset into [mAudioData]. *)
Definition GetAdjustedData (a : t) : option Z :=
  if negb (AlignedBuffer.to_bool (mAudioData a)) then None
  else Some (mDataOffset a).

(** [AudioData::Data]. *)
Definition Data (a : t) : Span :=
  mkSpan (GetAdjustedData a) (to_uint32 (mFrames a * mChannels a)).

(** [AudioData::SetOriginalStartTime]. *)
Definition SetOriginalStartTime (a : t) (aStartTime : TimeUnit.t) : t :=
  mk (set_mTime (base a) aStartTime) (mChannels a) (mChannelMap a) (mRate a)
     aStartTime (mTrimWindow a) (mAudioData a) (mFrames a) (mDataOffset a).

(** [AudioData::AdjustForStartTime]: the returned flag and the new frame. *)
Definition AdjustForStartTime (a : t) (aStartTime : TimeUnit.t) : bool * t :=
  let originalTime := TimeUnit.sub (mOriginalTime a) aStartTime in
  let time := TimeUnit.sub (mTime (base a)) aStartTime in
  let trim :=
    match mTrimWindow a with
    | Some w => Some (mkTimeInterval (TimeUnit.sub (mStart w) aStartTime)
                                     (TimeUnit.sub (mEnd w) aStartTime))
    | None => None
    end in
  (TimeUnit.IsValid time && TimeUnit.IsValid originalTime,
   mk (set_mTime (base a) time) (mChannels a) (mChannelMap a) (mRate a)
      originalTime trim (mAudioData a) (mFrames a) (mDataOffset a)).

Definition isNothing {A} (o : option A) : bool :=
  match o with None => true | Some _ => false end.

(** [AudioData::SetTrimWindow]: the returned flag and the new frame. *)
Definition SetTrimWindow (a : t) (aTrim : TimeInterval) : Completion (bool * t) :=
  if negb (AlignedBuffer.to_bool (mAudioData a)) then
    (* MoveableData got called. Can no longer work on it. *)
    Done (false, a)
  else if TimeUnit.ltb (mStart aTrim) (mOriginalTime a)
          || TimeUnit.gtb (mEnd aTrim) (GetEndTime (base a)) then
    Done (false, a)
  else
    let trimBefore := TimeUnit.sub (mStart aTrim) (mOriginalTime a) in
    let trimAfter := TimeUnit.sub (mEnd aTrim) (mOriginalTime a) in
    if negb (TimeUnit.IsValid trimBefore) || negb (TimeUnit.IsValid trimAfter)
    then (* Overflow. *)
      Done (false, a)
    else if isNothing (mTrimWindow a) && TimeUnit.IsZero trimBefore
            && TimeUnit.eqb trimAfter (mDuration (base a)) then
      (* Nothing to change, abort early to prevent rounding errors. *)
      Done (true, a)
    else
      let frameOffset := to_size_t (TimeUnit.ToTicksAtRate trimBefore (mRate a)) in
      let dataOffset := to_size_t (frameOffset * mChannels a) in
      let frameCountAfterTrim :=
        TimeUnit.ToTicksAtRate (TimeUnit.sub trimAfter trimBefore) (mRate a) in
      let finish (frames : Z) : t :=
        mk (set_mDuration
              (set_mTime (base a) (TimeUnit.add (mOriginalTime a) trimBefore))
              (TimeUnit.make frames (mRate a)))
           (mChannels a) (mChannelMap a) (mRate a) (mOriginalTime a)
           (Some aTrim) (mAudioData a) frames dataOffset in
      if frameCountAfterTrim >? AlignedBuffer.Length (mAudioData a) / mChannels a
      then
        (* Accept rounding error caused by an imprecise time_base in the
           container, but not other kind of unexpected frame count. *)
        if TimeUnit.IsBase trimBefore (mRate a) then
          Aborted "MOZ_RELEASE_ASSERT(!trimBefore.IsBase(mRate))"
        else Done (true, finish 0)
      else Done (true, finish (to_uint32 frameCountAfterTrim)).

(** [AudioData::MoveableData]: the buffer handed out and the frame left
    behind.  [aAllocOk] answers the allocation [SetLength] makes when it has
    to grow the buffer. *)
Definition MoveableData (aAllocOk : bool) (a : t) : AlignedAudioBuffer * t :=
  let popped := AlignedBuffer.PopFront (mAudioData a) (mDataOffset a) in
  let resized :=
    fst (AlignedBuffer.SetLength 0 aAllocOk popped
           (to_uint32 (mFrames a * mChannels a))) in
  (resized,
   mk (base a) (mChannels a) (mChannelMap a) (mRate a) (mOriginalTime a)
      None [] 0 0).

End AudioData.

(* ------------------------------------------------------------------ *)
(** ** VideoData *)

Definition to_int32 (z : Z) : Z := (z + 2 ^ 31) mod 2 ^ 32 - 2 ^ 31.

(** The limits [ValidatePlane] checks against are declared in headers that
    are not among the sources ([PlanarYCbCrImage::MAX_DIMENSION] in
    ImageContainer.h, [MAX_VIDEO_WIDTH] and [MAX_VIDEO_HEIGHT] in
    VideoUtils.h), and the Mac code path is chosen at build time; they are
    parameters of the embedding. *)
Record Build : Type := mkBuild {
  MAX_DIMENSION : Z;
  MAX_VIDEO_WIDTH : Z;
  MAX_VIDEO_HEIGHT : Z;
  XP_MACOSX : bool
}.

Record IntRect : Type := mkIntRect { x : Z; y : Z; width : Z; height : Z }.
Record IntSize : Type := mkIntSize { size_width : Z; size_height : Z }.

Inductive ColorDepth : Type := COLOR_8 | COLOR_10 | COLOR_12 | COLOR_16.

(** [VideoData::YCbCrBuffer::Plane]; [mData] is the address of the plane. *)
Record Plane : Type := mkPlane {
  mData : Z;
  mWidth : Z;   (* uint32_t *)
  mHeight : Z;  (* uint32_t *)
  mStride : Z;  (* uint32_t *)
  mSkip : Z     (* uint32_t *)
}.

(** [VideoData::YCbCrBuffer]; [mPlanes[0]], [mPlanes[1]], [mPlanes[2]] are
    [Y], [Cb], [Cr] as ConstructPlanarYCbCrData names them. *)
Record YCbCrBuffer : Type := mkYCbCrBuffer {
  Y : Plane;
  Cb : Plane;
  Cr : Plane;
  mYUVColorSpace : Z;
  mColorPrimaries : Z;
  mColorDepth : ColorDepth;
  mColorRange : Z;
  mChromaSubsampling : Z
}.

Record VideoInfo : Type := mkVideoInfo {
  mDisplay : IntSize;
  mStereoMode : Z;
  mTransferFunction : option Z
}.

Record PlanarYCbCrData : Type := mkPlanarYCbCrData {
  mYChannel : Z;
  mYStride : Z;
  mYSkip : Z;
  mCbChannel : Z;
  mCrChannel : Z;
  mCbCrStride : Z;
  mCbSkip : Z;
  mCrSkip : Z;
  mPictureRect : IntRect;
  d_mStereoMode : Z;
  d_mYUVColorSpace : Z;
  d_mColorPrimaries : Z;
  d_mColorDepth : ColorDepth;
  d_mTransferFunction : option Z;
  d_mColorRange : Z;
  d_mChromaSubsampling : Z
}.

(** The image a frame ends up holding.  A planar image records the plane
    description whose pixels were copied into it. *)
Inductive Image : Type :=
| PlanarYCbCrImage (copied : PlanarYCbCrData) (depth : ColorDepth)
| MacIOSurfaceImage (data : PlanarYCbCrData)
| SharedRGBImage (size : IntSize).

(** What the collaborators of [CreateAndCopyData] answer: the image
    container, the image it creates and the compositor are outside this
    module. *)
Record ImageContainer : Type := mkImageContainer {
  CreatePlanarYCbCrImage : bool;         (* does it hand out an image *)
  CopyData : PlanarYCbCrData -> nsresult;
  CreateSharedRGBImage : bool;
  AllocateAndMapTexture : bool;          (* Allocate, lock and map all succeed *)
  ConvertI420AlphaToARGB : nsresult
}.

Record KnowsCompositor : Type := mkKnowsCompositor {
  IsSoftwareWebRender : bool;
  MacIOSurfaceSetData : bool
}.

Module VideoData.

Record t : Type := mk {
  base : MediaData;
  v_mDisplay : IntSize;
  mFrameID : Z;
  mImage : option Image;
  mSentToCompositor : bool;
  mNextKeyFrameTime : TimeUnit.t
}.

(** [VideoData::VideoData]. *)
Definition ctor (aOffset : Z) (aTime aDuration : TimeUnit.t) (aKeyframe : bool)
    (aTimecode : TimeUnit.t) (aDisplay : IntSize) (aFrameID : Z) : t :=
  mk (set_mTimecode
        (set_mKeyframe (MediaData_ctor aOffset aTime aDuration) aKeyframe)
        aTimecode)
     aDisplay aFrameID None false TimeUnit.Invalid.

Definition set_mImage (v : t) (i : option Image) : t :=
  mk (base v) (v_mDisplay v) (mFrameID v) i
     (mSentToCompositor v) (mNextKeyFrameTime v).

(** [VideoData::UpdateDuration]. *)
Definition UpdateDuration (v : t) (aDuration : TimeUnit.t) : t :=
  mk (set_mDuration (base v) aDuration) (v_mDisplay v) (mFrameID v) (mImage v)
     (mSentToCompositor v) (mNextKeyFrameTime v).

(** [VideoData::UpdateTimestamp]. *)
Definition UpdateTimestamp (v : t) (aTimestamp : TimeUnit.t) : t :=
  let updatedDuration := TimeUnit.sub (GetEndTime (base v)) aTimestamp in
  mk (set_mDuration (set_mTime (base v) aTimestamp) updatedDuration)
     (v_mDisplay v) (mFrameID v) (mImage v)
     (mSentToCompositor v) (mNextKeyFrameTime v).

(** [ValidatePlane].  The plane members are unsigned 32-bit, so the product
    wraps and the signed limits are converted to unsigned for the
    comparisons. *)
Definition ValidatePlane (cfg : Build) (aPlane : Plane) : bool :=
  (mWidth aPlane <=? to_uint32 (MAX_DIMENSION cfg))
  && (mHeight aPlane <=? to_uint32 (MAX_DIMENSION cfg))
  && (to_uint32 (mWidth aPlane * mHeight aPlane)
      <? to_uint32 (MAX_VIDEO_WIDTH cfg * MAX_VIDEO_HEIGHT cfg))
  && (0 <? mStride aPlane)
  && (mWidth aPlane <=? mStride aPlane).

Definition NS_OK_result : MediaResult := mkMediaResult NS_OK EmptyString.

(** [ValidateBufferAndPicture]. *)
Definition ValidateBufferAndPicture (cfg : Build) (aBuffer : YCbCrBuffer)
    (aPicture : IntRect) : MediaResult :=
  if negb (mWidth (Cb aBuffer) =? mWidth (Cr aBuffer))
     || negb (mHeight (Cb aBuffer) =? mHeight (Cr aBuffer)) then
    mkMediaResult NS_ERROR_INVALID_ARG "Chroma planes with different sizes"
  else if (width aPicture <=? 0) || (height aPicture <=? 0) then
    mkMediaResult NS_ERROR_INVALID_ARG "Empty picture rect"
  else if negb (ValidatePlane cfg (Y aBuffer))
          || negb (ValidatePlane cfg (Cb aBuffer))
          || negb (ValidatePlane cfg (Cr aBuffer)) then
    mkMediaResult NS_ERROR_INVALID_ARG "Invalid plane size"
  else
    let xLimit := Checked.add 0 UINT32_MAX (CheckedUint32 (x aPicture))
                                           (CheckedUint32 (width aPicture)) in
    let yLimit := Checked.add 0 UINT32_MAX (CheckedUint32 (y aPicture))
                                           (CheckedUint32 (height aPicture)) in
    match xLimit, yLimit with
    | Some xl, Some yl =>
        if (xl >? mStride (Y aBuffer)) || (yl >? mHeight (Y aBuffer)) then
          mkMediaResult NS_ERROR_INVALID_ARG "Overflowing picture rect"
        else NS_OK_result
    | _, _ => mkMediaResult NS_ERROR_INVALID_ARG "Overflowing picture rect"
    end.

(** [ConstructPlanarYCbCrData]. *)
Definition ConstructPlanarYCbCrData (aInfo : VideoInfo) (aBuffer : YCbCrBuffer)
    (aPicture : IntRect) : PlanarYCbCrData :=
  mkPlanarYCbCrData
    (mData (Y aBuffer)) (to_int32 (mStride (Y aBuffer)))
    (to_int32 (mSkip (Y aBuffer)))
    (mData (Cb aBuffer)) (mData (Cr aBuffer))
    (to_int32 (mStride (Cb aBuffer)))
    (to_int32 (mSkip (Cb aBuffer))) (to_int32 (mSkip (Cr aBuffer)))
    aPicture (mStereoMode aInfo) (mYUVColorSpace aBuffer)
    (mColorPrimaries aBuffer) (mColorDepth aBuffer) (mTransferFunction aInfo)
    (mColorRange aBuffer) (mChromaSubsampling aBuffer).

(** [VideoData::CreateAndCopyData], the overload that returns a [Result]. *)
Definition CreateAndCopyData (cfg : Build) (aInfo : VideoInfo)
    (aContainer : option ImageContainer) (aOffset : Z)
    (aTime aDuration : TimeUnit.t) (aBuffer : YCbCrBuffer) (aKeyframe : bool)
    (aTimecode : TimeUnit.t) (aPicture : IntRect)
    (aAllocator : option KnowsCompositor) : Completion t :=
  let v := ctor aOffset aTime aDuration aKeyframe aTimecode (mDisplay aInfo) 0 in
  match aContainer with
  | None =>
      (* Create a dummy VideoData with no image. *)
      Done v
  | Some container =>
      let r := ValidateBufferAndPicture cfg aBuffer aPicture in
      if NS_FAILED (Code r) then Failed r
      else
        let data := ConstructPlanarYCbCrData aInfo aBuffer aPicture in
        let ioSurface :=
          XP_MACOSX cfg
          && match aAllocator with
             | Some k => negb (IsSoftwareWebRender k) && MacIOSurfaceSetData k
             | None => false
             end in
        if ioSurface then Done (set_mImage v (Some (MacIOSurfaceImage data)))
        else if negb (CreatePlanarYCbCrImage container) then
          Failed (mkMediaResult NS_ERROR_OUT_OF_MEMORY
                                "Failed to create a PlanarYCbCrImage")
        else
          let rc := CopyData container data in
          if NS_FAILED rc then
            Failed (mkMediaResult rc
                      "SetVideoDataToImage: Failed to copy image data")
          else
            Done (set_mImage v
                    (Some (PlanarYCbCrImage data (mColorDepth aBuffer))))
  end.

(** [VideoData::CreateAndCopyData], the overload with an alpha plane; it
    returns a null pointer on failure, which is [Failed] with the reason the
    code logs, if any. *)
Definition CreateAndCopyData_alpha (cfg : Build) (aInfo : VideoInfo)
    (aContainer : option ImageContainer) (aOffset : Z)
    (aTime aDuration : TimeUnit.t) (aBuffer : YCbCrBuffer) (aAlphaPlane : Plane)
    (aKeyframe : bool) (aTimecode : TimeUnit.t) (aPicture : IntRect)
    : Completion t :=
  let v := ctor aOffset aTime aDuration aKeyframe aTimecode (mDisplay aInfo) 0 in
  match aContainer with
  | None => Done v
  | Some container =>
      let r := ValidateBufferAndPicture cfg aBuffer aPicture in
      if NS_FAILED (Code r) then Failed r
      else if negb (CreateSharedRGBImage container) then
        Failed (mkMediaResult NS_ERROR_FAILURE EmptyString)
      else if negb (AllocateAndMapTexture container) then
        Failed (mkMediaResult NS_ERROR_FAILURE EmptyString)
      else if NS_FAILED (ConvertI420AlphaToARGB container) then
        Failed (mkMediaResult (ConvertI420AlphaToARGB container) EmptyString)
      else
        Done (set_mImage v
                (Some (SharedRGBImage
                         (mkIntSize (mWidth (Y aBuffer)) (mHeight (Y aBuffer))))))
  end.

End VideoData.

(* ------------------------------------------------------------------ *)
(** ** MediaRawData *)

Inductive CryptoScheme : Type := None_scheme | Cenc | Cbcs | Cbcs_1_9.

(** The encryption metadata of a sample.  [MediaRawData] holds it in the
    member [mCryptoInternal], to which its own [mCrypto] and the [mCrypto] of
    a [MediaRawDataWriter] are references. *)
Record CryptoSample : Type := mkCryptoSample {
  mCryptoScheme : CryptoScheme;
  mKeyId : list Z;
  mIV : list Z
}.

(** Address of a reference-counted object ([RefPtr<T>]). *)
Definition ref : Type := nat.

Module MediaRawData.

Record t : Type := mk {
  base : MediaData;
  mExtraData : option ref;            (* RefPtr<MediaByteBuffer> *)
  mCryptoInternal : CryptoSample;
  mTrackInfo : option ref;            (* RefPtr<TrackInfoSharedPtr> *)
  mEOS : bool;
  mOriginalPresentationWindow : option TimeInterval;
  mBuffer : AlignedBuffer.t Z;        (* AlignedByteBuffer *)
  mAlphaBuffer : AlignedBuffer.t Z
}.

(** The samples alive on the heap, by address. *)
Definition Heap : Type := list t.

Definition lookup (h : Heap) (p : ref) : option t := nth_error h p.

Fixpoint update (h : Heap) (p : ref) (s : t) : Heap :=
  match h, p with
  | [], _ => []
  | _ :: rest, O => s :: rest
  | s0 :: rest, S p' => s0 :: update rest p' s
  end.

(** The body of [MediaRawData::Clone] on the fields of [self]: the new
    sample, or nothing when one of the two [Append] calls cannot allocate.
    [aAllocBuffer] and [aAllocAlpha] are what the allocator answers. *)
Definition CloneSample (aAllocBuffer aAllocAlpha : bool) (self : t) : option t :=
  let '(buffer, ok) := AlignedBuffer.Append aAllocBuffer [] (mBuffer self) in
  if negb ok then None
  else
    let '(alpha, ok) := AlignedBuffer.Append aAllocAlpha [] (mAlphaBuffer self) in
    if negb ok then None
    else
      Some (mk (mkMediaData (mOffset (base self)) (mTime (base self))
                            (mTimecode (base self)) (mDuration (base self))
                            (mKeyframe (base self)))
               (mExtraData self) (mCryptoInternal self) (mTrackInfo self)
               (mEOS self) (mOriginalPresentationWindow self) buffer alpha).

(** [MediaRawData::Clone] of the sample at [self]: the heap afterwards and
    the address of the clone, [None] being the null pointer.  A clone that is
    given up is released again, so the heap is left as it was. *)
Definition Clone (aAllocBuffer aAllocAlpha : bool) (h : Heap) (self : ref)
  : Heap * option ref :=
  match lookup h self with
  | None => (h, None)
  | Some s =>
      match CloneSample aAllocBuffer aAllocAlpha s with
      | Some c => (h ++ [c], Some (List.length h))
      | None => (h, None)
      end
  end.

(** A write through [MediaRawDataWriter::mCrypto] of the writer created for
    the sample at [target]: the reference is bound to
    [target->mCryptoInternal]. *)
Definition Writer_set_mCrypto (h : Heap) (target : ref) (c : CryptoSample)
  : Heap :=
  match lookup h target with
  | Some s =>
      update h target
        (mk (base s) (mExtraData s) c (mTrackInfo s) (mEOS s)
            (mOriginalPresentationWindow s) (mBuffer s) (mAlphaBuffer s))
  | None => h
  end.

(** Two samples share their encryption metadata by reference when a write
    to the metadata of one is seen through the other. *)
Definition shares_crypto (h : Heap) (p q : ref) : Prop :=
  forall c, option_map mCryptoInternal (lookup (Writer_set_mCrypto h q c) p)
            = Some c.

End MediaRawData.

(* ================================================================== *)
(** * Vocabulary of the statements *)

(** A build to run the functions on: dimensions up to 16384, a pixel budget
    of 8192 x 4608, not a Mac. *)
Definition a_build : Build := mkBuild 16384 8192 4608 false.

(** The limits are what their C++ types can hold, and a plane of the largest
    accepted dimensions has a pixel count that fits 32 bits. *)
Definition limits_wf (cfg : Build) : Prop :=
  0 <= MAX_DIMENSION cfg
  /\ MAX_DIMENSION cfg * MAX_DIMENSION cfg <= UINT32_MAX
  /\ 0 <= MAX_VIDEO_WIDTH cfg * MAX_VIDEO_HEIGHT cfg <= INT32_MAX.

Definition plane_wf (p : Plane) : Prop :=
  is_uint32 (mWidth p) /\ is_uint32 (mHeight p) /\ is_uint32 (mStride p).

(** What [ValidatePlane] checks, over the integers. *)
Definition plane_ok (cfg : Build) (p : Plane) : Prop :=
  mWidth p <= MAX_DIMENSION cfg
  /\ mHeight p <= MAX_DIMENSION cfg
  /\ mWidth p * mHeight p < MAX_VIDEO_WIDTH cfg * MAX_VIDEO_HEIGHT cfg
  /\ 0 < mStride p
  /\ mWidth p <= mStride p.

(** The reasons [ValidateBufferAndPicture] gives. *)
Definition reason_strings : list string :=
  [ "Chroma planes with different sizes"%string;
    "Empty picture rect"%string;
    "Invalid plane size"%string;
    "Overflowing picture rect"%string ].

(** The picture rectangle leaves the Y plane: x + width is not an unsigned
    32-bit value or is beyond the stride, or y + height is not one or is
    beyond the height. *)
Definition picture_exceeds (aBuffer : YCbCrBuffer) (aPicture : IntRect) : Prop :=
  ~ is_uint32 (x aPicture + width aPicture)
  \/ x aPicture + width aPicture > mStride (Y aBuffer)
  \/ ~ is_uint32 (y aPicture + height aPicture)
  \/ y aPicture + height aPicture > mHeight (Y aBuffer).

(** A frame 1920x1080, 4:2:0, and a picture rectangle wider than its stride. *)
Definition hd_buffer : YCbCrBuffer :=
  mkYCbCrBuffer (mkPlane 0 1920 1080 1920 0) (mkPlane 0 960 540 960 0)
                (mkPlane 0 960 540 960 0) 0 0 COLOR_8 0 0.
Definition hd_info : VideoInfo := mkVideoInfo (mkIntSize 1920 1080) 0 None.
Definition wide_picture : IntRect := mkIntRect 16 0 1920 1080.
Definition a_container : ImageContainer :=
  mkImageContainer true (fun _ => NS_OK) true true NS_OK.

(** A raw sample with a three-byte payload, one byte of alpha, encryption
    metadata and track info at address 7; alone on the heap at address 0. *)
Definition a_crypto : CryptoSample := mkCryptoSample Cenc [1; 2] [3].
Definition other_crypto : CryptoSample := mkCryptoSample Cbcs [] [].
Definition a_raw_sample : MediaRawData.t :=
  MediaRawData.mk
    (mkMediaData 4096 (TimeUnit.make 1000 TimeUnit.USECS_PER_S)
                 (TimeUnit.make 900 TimeUnit.USECS_PER_S)
                 (TimeUnit.make 40 TimeUnit.USECS_PER_S) true)
    None a_crypto (Some 7%nat) false None [10; 20; 30] [255].
Definition a_heap : MediaRawData.Heap := [a_raw_sample].

(** Some encryption metadata other than [c]. *)
Definition crypto_other_than (c : CryptoSample) : CryptoSample :=
  mkCryptoSample (mCryptoScheme c) (0 :: mKeyId c) (mIV c).

(** Times in microseconds. *)
Definition usecs (n : Z) : TimeUnit.t := TimeUnit.make n TimeUnit.USECS_PER_S.

(** 9600 interleaved samples: 4800 stereo frames. *)
Definition stereo_samples : AlignedAudioBuffer := repeat 0 (Z.to_nat 9600).

(** What [AudioData::ctor] builds of them at 48000 Hz, at time zero. *)
Definition stereo_frame : AudioData.t :=
  AudioData.mk
    (mkMediaData 0 TimeUnit.Zero TimeUnit.Zero (TimeUnit.make 4800 48000) false)
    2 3 48000 TimeUnit.Zero None stereo_samples 4800 0.

(** The same frame once trimmed to [20ms, 60ms). *)
Definition trim_20_60 : TimeInterval := mkTimeInterval (usecs 20000) (usecs 60000).
Definition stereo_frame_trimmed : AudioData.t :=
  AudioData.mk
    (mkMediaData 0 (usecs 20000) TimeUnit.Zero (TimeUnit.make 1920 48000) false)
    2 3 48000 TimeUnit.Zero (Some trim_20_60) stereo_samples 1920 1920.

(** The frame count and the duration a frame had when it was built: the
    buffer is never reallocated by trimming. *)
Definition originalFrames (a : AudioData.t) : Z :=
  to_uint32 (AlignedBuffer.Length (AudioData.mAudioData a) / AudioData.mChannels a).
Definition originalDuration (a : AudioData.t) : TimeUnit.t :=
  TimeUnit.make (originalFrames a) (AudioData.mRate a).
Definition originalEnd (a : AudioData.t) : TimeUnit.t :=
  TimeUnit.add (AudioData.mOriginalTime a) (originalDuration a).

(** The window that spans the whole original range of a frame. *)
Definition full_window (a : AudioData.t) : TimeInterval :=
  mkTimeInterval (AudioData.mOriginalTime a) (originalEnd a).

(** A video frame at 0 that lasts 40 ms. *)
Definition a_video : VideoData.t :=
  VideoData.ctor 0 (usecs 0) (usecs 40000) true (usecs 0) (mkIntSize 1920 1080) 0.

(** The bases of the times a frame holds are positive, and so is its rate. *)
Definition audio_bases_positive (a : AudioData.t) : Prop :=
  0 < TimeUnit.mBase (mTime (AudioData.base a))
  /\ 0 < TimeUnit.mBase (mDuration (AudioData.base a))
  /\ 0 < TimeUnit.mBase (AudioData.mOriginalTime a)
  /\ 0 < AudioData.mRate a.

(** The range condition of a frame: as long as it holds its buffer, what it
    currently spans ends no later than what it spanned when it was built.
    The constructor establishes it; trimming keeps it when the start of the
    interval is not after its end. *)
Definition within_original (a : AudioData.t) : Prop :=
  AlignedBuffer.to_bool (AudioData.mAudioData a) = true ->
  audio_bases_positive a
  /\ TimeUnit.leb (GetEndTime (AudioData.base a)) (originalEnd a) = true.

(** The trim interval leaves the original range of the frame, or its
    arithmetic against the original time overflows. *)
Definition outside_original (a : AudioData.t) (aTrim : TimeInterval) : Prop :=
  TimeUnit.ltb (mStart aTrim) (AudioData.mOriginalTime a) = true
  \/ TimeUnit.gtb (mEnd aTrim) (originalEnd a) = true
  \/ TimeUnit.IsValid (TimeUnit.sub (mStart aTrim) (AudioData.mOriginalTime a)) = false
  \/ TimeUnit.IsValid (TimeUnit.sub (mEnd aTrim) (AudioData.mOriginalTime a)) = false.

(** A trim interval of positive bases whose start is not after its end. *)
Definition interval_wf (aTrim : TimeInterval) : Prop :=
  0 < TimeUnit.mBase (mStart aTrim)
  /\ 0 < TimeUnit.mBase (mEnd aTrim)
  /\ TimeUnit.leb (mStart aTrim) (mEnd aTrim) = true.

(** A frame that holds its buffer and was never trimmed. *)
Definition untrimmed (a : AudioData.t) : Prop :=
  AlignedBuffer.to_bool (AudioData.mAudioData a) = true
  /\ AudioData.mTrimWindow a = None
  /\ mTime (AudioData.base a) = AudioData.mOriginalTime a
  /\ mDuration (AudioData.base a) = originalDuration a.

(* ================================================================== *)
(** * Further functions of MediaData.cpp *)

(* ------------------------------------------------------------------ *)
(** ** AudioData::EnsureAudioBuffer *)

(** [dest[n] = v] on an array; a write outside the array is undefined in the
    code and leaves the list as it is here. *)
Fixpoint store {T} (l : list T) (n : nat) (v : T) : list T :=
  match l, n with
  | [], _ => []
  | _ :: t, O => v :: t
  | h :: t, S n' => h :: store t n' v
  end.

(** The values [0 .. n-1] a [for (uint32_t i = 0; i < n; ++i)] loop runs
    through. *)
Definition range (n : Z) : list Z := map Z.of_nat (seq 0 (Z.to_nat n)).

Definition SIZE_MAX : Z := 2 ^ 64 - 1.

(** [sizeof(AudioDataValue)]: samples are 32-bit floats. *)
Definition sizeof_AudioDataValue : Z := 4.

(** [AudioData::EnsureAudioBuffer].  [mAudioBuffer] is the member the planar
    copy is cached in ([None] is a null pointer); the function returns its
    new value.  [srcData[k]] reads the frame's buffer from the data offset
    on; the indices are computed in 32 bits as in the code.  The size of the
    new buffer is a [CheckedInt<size_t>]; creating a buffer of an invalid
    size does not return. *)
Definition EnsureAudioBuffer (a : AudioData.t)
    (mAudioBuffer : option (list AudioDataValue))
  : Completion (option (list AudioDataValue)) :=
  match mAudioBuffer with
  | Some b => Done (Some b)
  | None =>
      if negb (AlignedBuffer.to_bool (AudioData.mAudioData a)) then Done None
      else
        match Checked.make 0 SIZE_MAX
                (sizeof_AudioDataValue * AudioData.mFrames a
                 * AudioData.mChannels a) with
        | None => Aborted "SharedBuffer::Create"
        | Some bufferSize =>
            let srcData (k : Z) : AudioDataValue :=
              nth (Z.to_nat (AudioData.mDataOffset a + k))
                  (AudioData.mAudioData a) 0 in
            let destData : list AudioDataValue :=
              repeat 0 (Z.to_nat (bufferSize / sizeof_AudioDataValue)) in
            Done (Some
              (fold_left
                 (fun dest i =>
                    fold_left
                      (fun dest j =>
                         store dest
                           (Z.to_nat (to_uint32 (j * AudioData.mFrames a + i)))
                           (srcData (to_uint32 (i * AudioData.mChannels a + j))))
                      (range (AudioData.mChannels a)) dest)
                 (range (AudioData.mFrames a)) destData))
        end
  end.

(* ------------------------------------------------------------------ *)
(** ** VideoData::AdjustForStartTime *)

(** [VideoData::AdjustForStartTime]: the returned flag and the new frame. *)
Definition VideoData_AdjustForStartTime (v : VideoData.t)
    (aStartTime : TimeUnit.t) : bool * VideoData.t :=
  let time := TimeUnit.sub (mTime (VideoData.base v)) aStartTime in
  (TimeUnit.IsValid time,
   VideoData.mk (set_mTime (VideoData.base v) time) (VideoData.v_mDisplay v)
     (VideoData.mFrameID v) (VideoData.mImage v)
     (VideoData.mSentToCompositor v) (VideoData.mNextKeyFrameTime v)).

(* ------------------------------------------------------------------ *)
(** ** VideoData::QuantizableBuffer *)

(** The cases the switch of [To8BitPerChannel] tells apart; any other value
    of the enumeration takes the default branch. *)
Inductive ChromaSubsampling : Type :=
| FULL
| HALF_WIDTH
| HALF_WIDTH_AND_HEIGHT
| OtherSubsampling (code : Z).

(** The libyuv routines [To8BitPerChannel] chooses from. *)
Inductive Func16To8 : Type :=
| I010ToI420 | I012ToI420
| I210ToI422 | I212ToI422
| I410ToI444 | I412ToI444.

(** The results [To8BitPerChannel] returns. *)
Inductive QuantizeResult : Type :=
| Q_NS_OK
| Q_NS_ERROR_OUT_OF_MEMORY
| Q_NS_ERROR_DOM_MEDIA_DECODE_ERR.

(** [VideoData::QuantizableBuffer]: the planes, depth and subsampling of the
    YCbCrBuffer it extends, and its own members.  [m8bpcPlanes] is the
    address of the 8-bit buffer ([None] is a null pointer); [mRecycleBin]
    tells whether the bin is set. *)
Record QuantizableBuffer : Type := mkQuantizableBuffer {
  q_Y : Plane;
  q_Cb : Plane;
  q_Cr : Plane;
  q_mColorDepth : ColorDepth;
  q_mChromaSubsampling : ChromaSubsampling;
  m8bpcPlanes : option Z;
  mAllocatedLength : Z;
  mRecycleBin : bool
}.

(** The lambda [convertFunc] of [To8BitPerChannel]. *)
Definition convertFunc (aDepth : ColorDepth) (aSubsampling : ChromaSubsampling)
  : option Func16To8 :=
  match aSubsampling with
  | HALF_WIDTH_AND_HEIGHT =>
      Some (match aDepth with COLOR_10 => I010ToI420 | _ => I012ToI420 end)
  | HALF_WIDTH =>
      Some (match aDepth with COLOR_10 => I210ToI422 | _ => I212ToI422 end)
  | FULL =>
      Some (match aDepth with COLOR_10 => I410ToI444 | _ => I412ToI444 end)
  | OtherSubsampling _ => None
  end.

Definition set_plane (p : Plane) (data stride : Z) : Plane :=
  mkPlane data (mWidth p) (mHeight p) stride (mSkip p).

(** [QuantizableBuffer::To8BitPerChannel], with [AllocateRecyclableData]
    inlined.  [aGetBuffer] is what the recycle bin hands out for a length
    (the address of a buffer, or null) and [aLibyuv] what the chosen libyuv
    routine returns; both are outside this module.  The strides are halved
    into an [int]; the plane lengths are 32-bit products widened to
    [size_t]. *)
Definition To8BitPerChannel (aGetBuffer : Z -> option Z)
    (aLibyuv : Func16To8 -> Z) (q : QuantizableBuffer)
  : QuantizeResult * QuantizableBuffer :=
  let yStride := to_int32 (mStride (q_Y q) / 2) in
  let uvStride := to_int32 (mStride (q_Cb q) / 2) in
  let yLength := to_uint32 (yStride * mHeight (q_Y q)) in
  let uvLength := to_uint32 (uvStride * mHeight (q_Cb q)) in
  let total := to_size_t (yLength + to_size_t (uvLength * 2)) in
  let allocated :=
    mkQuantizableBuffer (q_Y q) (q_Cb q) (q_Cr q) (q_mColorDepth q)
      (q_mChromaSubsampling q) (aGetBuffer total) total true in
  match aGetBuffer total with
  | None => (Q_NS_ERROR_OUT_OF_MEMORY, allocated)
  | Some dest =>
      match convertFunc (q_mColorDepth q) (q_mChromaSubsampling q) with
      | None => (Q_NS_ERROR_DOM_MEDIA_DECODE_ERR, allocated)
      | Some f =>
          if negb (aLibyuv f =? 0) then
            (Q_NS_ERROR_DOM_MEDIA_DECODE_ERR, allocated)
          else
            (Q_NS_OK,
             mkQuantizableBuffer
               (set_plane (q_Y q) dest (to_uint32 yStride))
               (set_plane (q_Cb q) (dest + yLength) (to_uint32 uvStride))
               (set_plane (q_Cr q) (dest + yLength + uvLength)
                          (to_uint32 uvStride))
               COLOR_8 (q_mChromaSubsampling q) (Some dest) total true)
      end
  end.

(* ------------------------------------------------------------------ *)
(** ** Crypto scheme names *)

(** [CryptoSchemeSet]: the schemes the set holds. *)
Definition CryptoSchemeSet : Type := list CryptoScheme.

Definition CryptoScheme_eqb (a b : CryptoScheme) : bool :=
  match a, b with
  | None_scheme, None_scheme | Cenc, Cenc | Cbcs, Cbcs
  | Cbcs_1_9, Cbcs_1_9 => true
  | _, _ => false
  end.

Definition contains (aSchemes : CryptoSchemeSet) (s : CryptoScheme) : bool :=
  existsb (CryptoScheme_eqb s) aSchemes.

Definition IsEmpty (s : string) : bool :=
  match s with EmptyString => true | _ => false end.

(** [CryptoSchemeSetToString]. *)
Definition CryptoSchemeSetToString (aSchemes : CryptoSchemeSet) : string :=
  let rv := EmptyString in
  let rv := if contains aSchemes Cenc then (rv ++ "cenc")%string else rv in
  let rv :=
    if contains aSchemes Cbcs then
      ((if negb (IsEmpty rv) then rv ++ "/" else rv) ++ "cbcs")%string
    else rv in
  let rv :=
    if contains aSchemes Cbcs_1_9 then
      ((if negb (IsEmpty rv) then rv ++ "/" else rv) ++ "cbcs-1-9")%string
    else rv in
  if IsEmpty rv then "none"%string else rv.

(** [StringToCryptoScheme]. *)
Definition StringToCryptoScheme (aString : string) : CryptoScheme :=
  if String.eqb aString "cenc" then Cenc
  else if String.eqb aString "cbcs" then Cbcs
  else if String.eqb aString "cbcs-1-9" then Cbcs_1_9
  else None_scheme.

(* ------------------------------------------------------------------ *)
(** ** Vocabulary of the further statements *)

(** The picture rectangle lies inside the Y plane. *)
Definition picture_fits (aBuffer : YCbCrBuffer) (aPicture : IntRect) : Prop :=
  0 <= x aPicture /\ 0 <= y aPicture
  /\ x aPicture + width aPicture <= mStride (Y aBuffer)
  /\ y aPicture + height aPicture <= mHeight (Y aBuffer).

(** Everything [ValidateBufferAndPicture] asks for. *)
Definition buffer_and_picture_ok (cfg : Build) (aBuffer : YCbCrBuffer)
    (aPicture : IntRect) : Prop :=
  mWidth (Cb aBuffer) = mWidth (Cr aBuffer)
  /\ mHeight (Cb aBuffer) = mHeight (Cr aBuffer)
  /\ 0 < width aPicture /\ 0 < height aPicture
  /\ VideoData.ValidatePlane cfg (Y aBuffer) = true
  /\ VideoData.ValidatePlane cfg (Cb aBuffer) = true
  /\ VideoData.ValidatePlane cfg (Cr aBuffer) = true
  /\ picture_fits aBuffer aPicture.

(** A picture rectangle inside the 1920x1080 frame. *)
Definition hd_picture : IntRect := mkIntRect 0 0 1920 1080.

(** The members of a frame have the range of their C++ types, and the frame
    has a channel. *)
Definition audio_wf (a : AudioData.t) : Prop :=
  0 < AudioData.mChannels a /\ is_uint32 (AudioData.mChannels a)
  /\ is_uint32 (AudioData.mFrames a)
  /\ AlignedBuffer.Length (AudioData.mAudioData a) / AudioData.mChannels a
     <= UINT32_MAX.

(** The samples [Data()] spans lie inside the buffer. *)
Definition span_in_bounds (a : AudioData.t) : Prop :=
  0 <= AudioData.mDataOffset a
  /\ 0 <= AudioData.mFrames a
  /\ AudioData.mDataOffset a + AudioData.mFrames a * AudioData.mChannels a
     <= AlignedBuffer.Length (AudioData.mAudioData a).

(** Six interleaved samples: three stereo frames L0 R0 L1 R1 L2 R2. *)
Definition small_frame : AudioData.t :=
  AudioData.mk
    (mkMediaData 0 TimeUnit.Zero TimeUnit.Zero (TimeUnit.make 3 48000) false)
    2 3 48000 TimeUnit.Zero None [10; 20; 11; 21; 12; 22] 3 0.

(** A 10-bit 4:2:0 buffer, 8x4 pixels, two bytes a sample. *)
Definition a_quantizable : QuantizableBuffer :=
  mkQuantizableBuffer (mkPlane 1000 8 4 16 0) (mkPlane 2000 4 2 8 0)
    (mkPlane 3000 4 2 8 0) COLOR_10 HALF_WIDTH_AND_HEIGHT None 0 false.

(** The plane description an image was given. *)
Definition image_data (i : Image) : option PlanarYCbCrData :=
  match i with
  | PlanarYCbCrImage d _ => Some d
  | MacIOSurfaceImage d => Some d
  | SharedRGBImage _ => None
  end.

(** The Mac path of [CreateAndCopyData] is taken and succeeds. *)
Definition uses_io_surface (cfg : Build) (aAllocator : option KnowsCompositor)
  : bool :=
  XP_MACOSX cfg
  && match aAllocator with
     | Some k => negb (IsSoftwareWebRender k) && MacIOSurfaceSetData k
     | None => false
     end.

(** A bin that hands out the buffer at address 5000, and libyuv succeeding. *)
Definition a_bin (aLength : Z) : option Z := Some 5000.
Definition libyuv_ok (f : Func16To8) : Z := 0.

(** The frame CreateAndCopyData makes of the 1920x1080 buffer. *)
Definition hd_video : VideoData.t :=
  VideoData.set_mImage
    (VideoData.ctor 0 TimeUnit.Zero (usecs 40000) true TimeUnit.Zero
       (mkIntSize 1920 1080) 0)
    (Some (PlanarYCbCrImage
             (VideoData.ConstructPlanarYCbCrData hd_info hd_buffer hd_picture)
             COLOR_8)).

(** An interval whose start is after its end, the stereo frame once
    SetTrimWindow has taken it, and an interval that ends one microsecond
    after the 100 ms of the stereo frame, with the frame it leads to. *)
Definition trim_60_20 : TimeInterval := mkTimeInterval (usecs 60000) (usecs 20000).
Definition stereo_frame_reversed : AudioData.t :=
  AudioData.mk
    (mkMediaData 0 (usecs 60000) TimeUnit.Zero
                 (TimeUnit.make 4294965376 48000) false)
    2 3 48000 TimeUnit.Zero (Some trim_60_20) stereo_samples 4294965376 5760.
Definition trim_50_100001 : TimeInterval :=
  mkTimeInterval (usecs 50000) (usecs 100001).
Definition stereo_frame_beyond : AudioData.t :=
  AudioData.mk
    (mkMediaData 0 (usecs 50000) TimeUnit.Zero (TimeUnit.make 2400 48000) false)
    2 3 48000 TimeUnit.Zero (Some trim_50_100001) stereo_samples 2400 4800.

(* ================================================================== *)
(** * Properties *)

(* ------------------------------------------------------------------ *)
(** ** Machine integers and checked arithmetic *)

Lemma to_uint32_id z : is_uint32 z -> to_uint32 z = z.
Proof.
  unfold is_uint32, UINT32_MAX, to_uint32. intros H.
  apply Z.mod_small. lia.
Qed.

Lemma to_uint32_range z : is_uint32 (to_uint32 z).
Proof.
  unfold is_uint32, UINT32_MAX, to_uint32.
  pose proof (Z.mod_pos_bound z (2 ^ 32)). lia.
Qed.

Lemma to_uint32_le z : 0 <= z -> to_uint32 z <= z.
Proof.
  intros H. unfold to_uint32. apply Z.mod_le; lia.
Qed.

Lemma make_Some lo hi v r :
  Checked.make lo hi v = Some r <-> (lo <= v <= hi /\ r = v).
Proof.
  unfold Checked.make.
  destruct (Z.leb_spec lo v); destruct (Z.leb_spec v hi); simpl;
    split; intros H1; try discriminate; try lia.
  - inversion H1; subst; lia.
  - destruct H1 as [_ ->]; reflexivity.
Qed.

Lemma make_None lo hi v :
  Checked.make lo hi v = None <-> ~ (lo <= v <= hi).
Proof.
  unfold Checked.make.
  destruct (Z.leb_spec lo v); destruct (Z.leb_spec v hi); simpl;
    split; intros H1; try discriminate; try lia; try reflexivity.
Qed.

Lemma checked_add_Some lo hi a b r :
  Checked.add lo hi a b = Some r ->
  exists u v, a = Some u /\ b = Some v /\ r = u + v /\ lo <= u + v <= hi.
Proof.
  destruct a as [u|], b as [v|]; simpl; try discriminate.
  intros H. apply make_Some in H. exists u, v. intuition.
Qed.

(* ------------------------------------------------------------------ *)
(** ** ValidatePlane *)

Section Planes.

Variable cfg : Build.

(** C6, as amended.  For a plane of unsigned 32-bit members, [ValidatePlane]
    returns true exactly when width and height are at most [MAX_DIMENSION],
    width * height is below [MAX_VIDEO_WIDTH * MAX_VIDEO_HEIGHT], the stride
    is positive, and the stride is at least the width. *)
Theorem ValidatePlane_iff (p : Plane) :
  limits_wf cfg -> plane_wf p ->
  (VideoData.ValidatePlane cfg p = true <-> plane_ok cfg p).
Proof.
  intros (Hd0 & Hdd & Hb) (Hw & Hh & Hs).
  unfold VideoData.ValidatePlane, plane_ok.
  assert (Hd : is_uint32 (MAX_DIMENSION cfg)).
  { unfold is_uint32, UINT32_MAX in *. nia. }
  assert (Hbu : is_uint32 (MAX_VIDEO_WIDTH cfg * MAX_VIDEO_HEIGHT cfg)).
  { unfold is_uint32, UINT32_MAX, INT32_MAX in *. lia. }
  rewrite (to_uint32_id _ Hd), (to_uint32_id _ Hbu).
  rewrite !andb_true_iff, !Z.leb_le, !Z.ltb_lt.
  split.
  - intros ((((H1 & H2) & H3) & H4) & H5).
    rewrite to_uint32_id in H3; [tauto|].
    unfold is_uint32, UINT32_MAX in *. nia.
  - intros (H1 & H2 & H3 & H4 & H5).
    rewrite to_uint32_id; [tauto|].
    unfold is_uint32, UINT32_MAX in *. nia.
Qed.

End Planes.

(** Witness for C6: a 640x480 plane of stride 640. *)
Lemma ValidatePlane_iff_witness :
  VideoData.ValidatePlane a_build (mkPlane 0 640 480 640 0) = true
  <-> plane_ok a_build (mkPlane 0 640 480 640 0).
Proof.
  apply (ValidatePlane_iff a_build (mkPlane 0 640 480 640 0)).
  - unfold limits_wf, a_build, UINT32_MAX, INT32_MAX; simpl; lia.
  - unfold plane_wf, is_uint32, UINT32_MAX; simpl; lia.
Defined.

(** A plane without stride is rejected whatever the limits are. *)
Lemma ValidatePlane_zero_stride cfg p :
  mStride p = 0 -> VideoData.ValidatePlane cfg p = false.
Proof.
  intros H. unfold VideoData.ValidatePlane. rewrite H. simpl.
  rewrite andb_false_r. reflexivity.
Qed.

(** C6, as stated, fails: a plane of width, height and stride zero has
    stride >= width and a pixel count below the budget, and so has a plane
    20000 wide and 1 high, yet [ValidatePlane] rejects both (zero stride;
    width above [MAX_DIMENSION]). *)
Lemma ValidatePlane_not_iff_stride_and_budget :
  (VideoData.ValidatePlane a_build (mkPlane 0 0 0 0 0) = false
   /\ mStride (mkPlane 0 0 0 0 0) >= mWidth (mkPlane 0 0 0 0 0)
   /\ mWidth (mkPlane 0 0 0 0 0) * mHeight (mkPlane 0 0 0 0 0)
      < MAX_VIDEO_WIDTH a_build * MAX_VIDEO_HEIGHT a_build)
  /\ (VideoData.ValidatePlane a_build (mkPlane 0 20000 1 20000 0) = false
      /\ mStride (mkPlane 0 20000 1 20000 0) >= mWidth (mkPlane 0 20000 1 20000 0)
      /\ mWidth (mkPlane 0 20000 1 20000 0) * mHeight (mkPlane 0 20000 1 20000 0)
         < MAX_VIDEO_WIDTH a_build * MAX_VIDEO_HEIGHT a_build).
Proof. repeat split; vm_compute; congruence. Qed.

(* ------------------------------------------------------------------ *)
(** ** VideoData::CreateAndCopyData *)

Lemma ValidateBufferAndPicture_code cfg aBuffer aPicture :
  Code (VideoData.ValidateBufferAndPicture cfg aBuffer aPicture) = NS_OK
  \/ (Code (VideoData.ValidateBufferAndPicture cfg aBuffer aPicture)
        = NS_ERROR_INVALID_ARG
      /\ In (Message (VideoData.ValidateBufferAndPicture cfg aBuffer aPicture))
            reason_strings).
Proof.
  unfold VideoData.ValidateBufferAndPicture, reason_strings.
  repeat match goal with
         | |- context [if ?c then _ else _] => destruct c
         | |- context [match ?c with Some _ => _ | None => _ end] => destruct c
         end; simpl; auto 8.
Qed.

Lemma ValidateBufferAndPicture_exceeds cfg aBuffer aPicture :
  picture_exceeds aBuffer aPicture ->
  Code (VideoData.ValidateBufferAndPicture cfg aBuffer aPicture) <> NS_OK.
Proof.
  intros Hex. unfold VideoData.ValidateBufferAndPicture.
  repeat match goal with
         | |- context [if ?c then _ else _] => destruct c eqn:?
         end; simpl; try discriminate.
  destruct (Checked.add 0 UINT32_MAX (CheckedUint32 (x aPicture))
              (CheckedUint32 (width aPicture))) as [xl|] eqn:Hx;
    [|simpl; discriminate].
  destruct (Checked.add 0 UINT32_MAX (CheckedUint32 (y aPicture))
              (CheckedUint32 (height aPicture))) as [yl|] eqn:Hy;
    [|simpl; discriminate].
  apply checked_add_Some in Hx. destruct Hx as (u & v & Hu & Hv & -> & Hr).
  apply checked_add_Some in Hy. destruct Hy as (u' & v' & Hu' & Hv' & -> & Hr').
  unfold CheckedUint32 in *.
  apply make_Some in Hu, Hv, Hu', Hv'.
  destruct Hu as [_ ->], Hv as [_ ->], Hu' as [_ ->], Hv' as [_ ->].
  destruct ((x aPicture + width aPicture >? mStride (Y aBuffer))
            || (y aPicture + height aPicture >? mHeight (Y aBuffer))) eqn:E;
    simpl; [discriminate|].
  apply orb_false_iff in E. destruct E as [E1 E2].
  pose proof (Zgt_cases (x aPicture + width aPicture) (mStride (Y aBuffer))).
  pose proof (Zgt_cases (y aPicture + height aPicture) (mHeight (Y aBuffer))).
  rewrite E1 in *. rewrite E2 in *.
  unfold picture_exceeds, is_uint32 in Hex. exfalso. lia.
Qed.

(** C1, as amended.  When the ImageContainer is not null and the picture
    rectangle leaves the Y plane (x + width overflows or exceeds the stride,
    or y + height overflows or exceeds the height), CreateAndCopyData fails
    with an InvalidArgument error carrying one of the four reason strings;
    the result holds no VideoData, so no plane was copied. *)
Theorem CreateAndCopyData_rejects_exceeding_picture
    cfg aInfo container aOffset aTime aDuration aBuffer aKeyframe aTimecode
    aPicture aAllocator :
  picture_exceeds aBuffer aPicture ->
  exists reason,
    VideoData.CreateAndCopyData cfg aInfo (Some container) aOffset aTime
      aDuration aBuffer aKeyframe aTimecode aPicture aAllocator
    = Failed (mkMediaResult NS_ERROR_INVALID_ARG reason)
    /\ In reason reason_strings.
Proof.
  intros Hex.
  pose proof (ValidateBufferAndPicture_exceeds cfg _ _ Hex) as Hne.
  destruct (ValidateBufferAndPicture_code cfg aBuffer aPicture)
    as [Hok | [Hcode Hmsg]]; [contradiction|].
  unfold VideoData.CreateAndCopyData.
  destruct (VideoData.ValidateBufferAndPicture cfg aBuffer aPicture)
    as [code msg] eqn:E.
  simpl in *. subst code. simpl.
  exists msg. split; [reflexivity | assumption].
Qed.

(** Witness for C1: a picture
    rectangle starting at x = 16 and as wide as the 1920 stride. *)
Lemma CreateAndCopyData_rejects_exceeding_picture_witness :
  exists reason,
    VideoData.CreateAndCopyData a_build hd_info (Some a_container) 0
      TimeUnit.Zero TimeUnit.Zero hd_buffer true TimeUnit.Zero wide_picture
      None
    = Failed (mkMediaResult NS_ERROR_INVALID_ARG reason)
    /\ In reason reason_strings.
Proof.
  apply (CreateAndCopyData_rejects_exceeding_picture a_build hd_info
           a_container 0 TimeUnit.Zero TimeUnit.Zero hd_buffer true
           TimeUnit.Zero wide_picture None).
  unfold picture_exceeds. right. left. simpl. lia.
Defined.

(** C1, as stated, fails: with a null ImageContainer the same exceeding
    picture rectangle is not looked at and a VideoData is returned. *)
Lemma CreateAndCopyData_null_container_accepts_exceeding_picture :
  picture_exceeds hd_buffer wide_picture
  /\ VideoData.CreateAndCopyData a_build hd_info None 0 TimeUnit.Zero
       TimeUnit.Zero hd_buffer true TimeUnit.Zero wide_picture None
     = Done (VideoData.ctor 0 TimeUnit.Zero TimeUnit.Zero true TimeUnit.Zero
               (mkIntSize 1920 1080) 0).
Proof.
  split.
  - unfold picture_exceeds. right. left. simpl. lia.
  - reflexivity.
Qed.

(** C10.  With a null ImageContainer both overloads of CreateAndCopyData
    return, whatever the buffer and the picture rectangle are, a VideoData
    without image whose offset, time, duration, keyframe flag and timecode
    are the arguments. *)
Theorem CreateAndCopyData_null_container
    cfg aInfo aOffset aTime aDuration aBuffer aAlphaPlane aKeyframe aTimecode
    aPicture aAllocator :
  exists v,
    VideoData.CreateAndCopyData cfg aInfo None aOffset aTime aDuration
      aBuffer aKeyframe aTimecode aPicture aAllocator = Done v
    /\ VideoData.CreateAndCopyData_alpha cfg aInfo None aOffset aTime
         aDuration aBuffer aAlphaPlane aKeyframe aTimecode aPicture = Done v
    /\ VideoData.mImage v = None
    /\ mOffset (VideoData.base v) = aOffset
    /\ mTime (VideoData.base v) = aTime
    /\ mDuration (VideoData.base v) = aDuration
    /\ mKeyframe (VideoData.base v) = aKeyframe
    /\ mTimecode (VideoData.base v) = aTimecode.
Proof.
  eexists. repeat split; reflexivity.
Qed.

(* ------------------------------------------------------------------ *)
(** ** MediaRawData::Clone *)

Lemma lookup_app_l (h : MediaRawData.Heap) c p :
  (p < List.length h)%nat ->
  MediaRawData.lookup (h ++ [c]) p = MediaRawData.lookup h p.
Proof.
  intros Hp. unfold MediaRawData.lookup. apply nth_error_app1. exact Hp.
Qed.

Lemma lookup_app_new (h : MediaRawData.Heap) c :
  MediaRawData.lookup (h ++ [c]) (List.length h) = Some c.
Proof.
  unfold MediaRawData.lookup. rewrite nth_error_app2 by lia.
  rewrite Nat.sub_diag. reflexivity.
Qed.

Lemma lookup_Some_lt (h : MediaRawData.Heap) p s :
  MediaRawData.lookup h p = Some s -> (p < List.length h)%nat.
Proof.
  unfold MediaRawData.lookup. intros H.
  apply nth_error_Some. rewrite H. discriminate.
Qed.

Lemma lookup_update_other (h : MediaRawData.Heap) p q s :
  p <> q ->
  MediaRawData.lookup (MediaRawData.update h q s) p = MediaRawData.lookup h p.
Proof.
  unfold MediaRawData.lookup.
  revert p q. induction h as [|s0 rest IH]; intros p q Hpq; simpl.
  - reflexivity.
  - destruct q as [|q']; destruct p as [|p']; simpl; try reflexivity.
    + congruence.
    + apply IH. congruence.
Qed.

Lemma crypto_other_than_differs c : crypto_other_than c <> c.
Proof.
  destruct c as [sch key iv]. unfold crypto_other_than. simpl.
  intros H. inversion H as [Hk].
  apply (f_equal (@List.length Z)) in Hk. simpl in Hk. lia.
Qed.

(** A write to the encryption metadata of one sample does not reach a
    sample at another address. *)
Lemma Writer_set_mCrypto_other h p q c :
  p <> q ->
  MediaRawData.lookup (MediaRawData.Writer_set_mCrypto h q c) p
  = MediaRawData.lookup h p.
Proof.
  intros Hpq. unfold MediaRawData.Writer_set_mCrypto.
  destruct (MediaRawData.lookup h q); [|reflexivity].
  apply lookup_update_other. exact Hpq.
Qed.

(** C9, as amended.  Clone of a sample either returns a new sample whose
    timestamp, duration, offset, keyframe flag, timecode, primary payload and
    alpha payload equal the original's, which holds the same track-info
    reference as the original and its own copy of the encryption metadata
    (equal to the original's, but not shared with it), or, exactly when one
    of the two buffer copies cannot allocate, returns null and leaves no
    sample behind. *)
Theorem Clone_full_or_null aAllocBuffer aAllocAlpha h self s :
  MediaRawData.lookup h self = Some s ->
  (aAllocBuffer && aAllocAlpha = true
   /\ exists c,
        MediaRawData.Clone aAllocBuffer aAllocAlpha h self
        = (h ++ [c], Some (List.length h))
        /\ MediaRawData.lookup (h ++ [c]) self = Some s
        /\ mTime (MediaRawData.base c) = mTime (MediaRawData.base s)
        /\ mDuration (MediaRawData.base c) = mDuration (MediaRawData.base s)
        /\ mOffset (MediaRawData.base c) = mOffset (MediaRawData.base s)
        /\ mKeyframe (MediaRawData.base c) = mKeyframe (MediaRawData.base s)
        /\ mTimecode (MediaRawData.base c) = mTimecode (MediaRawData.base s)
        /\ MediaRawData.mBuffer c = MediaRawData.mBuffer s
        /\ MediaRawData.mAlphaBuffer c = MediaRawData.mAlphaBuffer s
        /\ MediaRawData.mTrackInfo c = MediaRawData.mTrackInfo s
        /\ MediaRawData.mCryptoInternal c = MediaRawData.mCryptoInternal s
        /\ ~ MediaRawData.shares_crypto (h ++ [c]) self (List.length h))
  \/ (aAllocBuffer && aAllocAlpha = false
      /\ MediaRawData.Clone aAllocBuffer aAllocAlpha h self = (h, None)).
Proof.
  intros Hs. unfold MediaRawData.Clone. rewrite Hs.
  pose proof (lookup_Some_lt _ _ _ Hs) as Hlt.
  destruct aAllocBuffer, aAllocAlpha; simpl;
    try (right; split; reflexivity).
  left. split; [reflexivity|].
  eexists. split; [reflexivity|].
  split; [rewrite lookup_app_l by exact Hlt; exact Hs|].
  repeat (split; [reflexivity|]).
  intros Hshare.
  specialize (Hshare (crypto_other_than (MediaRawData.mCryptoInternal s))).
  rewrite Writer_set_mCrypto_other in Hshare by lia.
  rewrite lookup_app_l in Hshare by exact Hlt.
  rewrite Hs in Hshare. simpl in Hshare.
  inversion Hshare as [Heq].
  symmetry in Heq. exact (crypto_other_than_differs _ Heq).
Qed.

(** Witness for C9: the sample at address 0 of [a_heap],
    both allocations succeeding. *)
Lemma Clone_full_or_null_witness :
  MediaRawData.lookup a_heap 0%nat = Some a_raw_sample
  /\ ((true && true = true
       /\ exists c,
            MediaRawData.Clone true true a_heap 0%nat
            = (a_heap ++ [c], Some (List.length a_heap))
            /\ MediaRawData.lookup (a_heap ++ [c]) 0%nat = Some a_raw_sample
            /\ mTime (MediaRawData.base c) = mTime (MediaRawData.base a_raw_sample)
            /\ mDuration (MediaRawData.base c)
               = mDuration (MediaRawData.base a_raw_sample)
            /\ mOffset (MediaRawData.base c)
               = mOffset (MediaRawData.base a_raw_sample)
            /\ mKeyframe (MediaRawData.base c)
               = mKeyframe (MediaRawData.base a_raw_sample)
            /\ mTimecode (MediaRawData.base c)
               = mTimecode (MediaRawData.base a_raw_sample)
            /\ MediaRawData.mBuffer c = MediaRawData.mBuffer a_raw_sample
            /\ MediaRawData.mAlphaBuffer c
               = MediaRawData.mAlphaBuffer a_raw_sample
            /\ MediaRawData.mTrackInfo c = MediaRawData.mTrackInfo a_raw_sample
            /\ MediaRawData.mCryptoInternal c
               = MediaRawData.mCryptoInternal a_raw_sample
            /\ ~ MediaRawData.shares_crypto (a_heap ++ [c]) 0%nat
                   (List.length a_heap))
      \/ (true && true = false
          /\ MediaRawData.Clone true true a_heap 0%nat = (a_heap, None))).
Proof.
  split; [reflexivity|].
  apply (Clone_full_or_null true true a_heap 0%nat a_raw_sample).
  reflexivity.
Defined.

(** C9, as stated, fails: the clone of the sample of [a_heap] lives at
    address 1 and does not share its encryption metadata with the original;
    a write through the clone's writer leaves the original's as it was. *)
Lemma Clone_does_not_share_crypto :
  fst (MediaRawData.Clone true true a_heap 0%nat)
  = [a_raw_sample; a_raw_sample]
  /\ snd (MediaRawData.Clone true true a_heap 0%nat) = Some 1%nat
  /\ option_map MediaRawData.mCryptoInternal
       (MediaRawData.lookup
          (MediaRawData.Writer_set_mCrypto [a_raw_sample; a_raw_sample]
             1%nat other_crypto) 0%nat)
     = Some a_crypto
  /\ ~ MediaRawData.shares_crypto [a_raw_sample; a_raw_sample] 0%nat 1%nat.
Proof.
  repeat split; try reflexivity.
  intros Hshare. specialize (Hshare other_crypto).
  vm_compute in Hshare. discriminate.
Qed.

(* ------------------------------------------------------------------ *)
(** ** AudioData: construction *)

(** C7, as amended.  Constructing an AudioData with a channel count that is
    not zero and a sample rate of zero fails the release assertion "Can't
    create an AudioData with a sample-rate of 0.": the construction aborts,
    and no error value is handed to the caller. *)
Theorem AudioData_ctor_zero_rate_aborts aOffset aTime aData aChannels aRate aChannelMap :
  aChannels <> 0 -> aRate = 0 ->
  AudioData.ctor aOffset aTime aData aChannels aRate aChannelMap
  = Aborted "Can't create an AudioData with a sample-rate of 0."
  /\ is_aborted (AudioData.ctor aOffset aTime aData aChannels aRate aChannelMap)
     = true
  /\ forall r, AudioData.ctor aOffset aTime aData aChannels aRate aChannelMap
               <> Failed r.
Proof.
  intros Hc Hr. unfold AudioData.ctor.
  destruct (Z.eqb_spec aChannels 0) as [E|_]; [contradiction|].
  destruct (Z.eqb_spec aRate 0) as [_|E]; [|contradiction].
  split; [reflexivity|]. split; [reflexivity | discriminate].
Qed.

(** Witness for C7: two channels and a rate of zero. *)
Lemma AudioData_ctor_zero_rate_aborts_witness :
  AudioData.ctor 0 TimeUnit.Zero stereo_samples 2 0 3
  = Aborted "Can't create an AudioData with a sample-rate of 0."
  /\ is_aborted (AudioData.ctor 0 TimeUnit.Zero stereo_samples 2 0 3) = true
  /\ forall r, AudioData.ctor 0 TimeUnit.Zero stereo_samples 2 0 3 <> Failed r.
Proof.
  apply (AudioData_ctor_zero_rate_aborts 0 TimeUnit.Zero stereo_samples 2 0 3).
  - lia.
  - reflexivity.
Defined.

(** C7, as stated, fails: with two channels and a rate of zero the
    constructor does not give an InvalidArgument value back, it fails the
    release assertion. *)
Lemma AudioData_ctor_zero_rate_is_not_an_error_value :
  AudioData.ctor 0 TimeUnit.Zero stereo_samples 2 0 3
  = Aborted "Can't create an AudioData with a sample-rate of 0."
  /\ (forall reason,
        AudioData.ctor 0 TimeUnit.Zero stereo_samples 2 0 3
        <> Failed (mkMediaResult NS_ERROR_INVALID_ARG reason)).
Proof.
  split; [reflexivity|]. intros reason. discriminate.
Qed.

Lemma make_valid ticks base :
  INT64_MIN <= ticks <= INT64_MAX ->
  TimeUnit.IsValid (TimeUnit.make ticks base) = true
  /\ TimeUnit.value (TimeUnit.make ticks base) = ticks.
Proof.
  intros H. unfold TimeUnit.IsValid, TimeUnit.value, TimeUnit.make. simpl.
  unfold CheckedInt64.
  destruct (Checked.make INT64_MIN INT64_MAX ticks) as [v|] eqn:E.
  - apply make_Some in E. destruct E as [_ ->]. split; reflexivity.
  - apply make_None in E. contradiction.
Qed.

Lemma uint32_is_int64 z : is_uint32 z -> INT64_MIN <= z <= INT64_MAX.
Proof. unfold is_uint32, UINT32_MAX, INT64_MIN, INT64_MAX. lia. Qed.

(** The concrete scenario of C3. *)
Lemma stereo_scenario :
  AudioData.ctor 0 TimeUnit.Zero stereo_samples 2 48000 3 = Done stereo_frame
  /\ AudioData.mFrames stereo_frame = 4800
  /\ Qeq (TimeUnit.toQ (mDuration (AudioData.base stereo_frame))) (100 # 1000)
  /\ AudioData.SetTrimWindow stereo_frame trim_20_60
     = Done (true, stereo_frame_trimmed)
  /\ AudioData.mFrames stereo_frame_trimmed = 1920
  /\ AudioData.mDataOffset stereo_frame_trimmed = 1920.
Proof.
  repeat split; vm_compute; reflexivity.
Qed.

(** C3.  An AudioData built from a buffer of L samples with C > 0 channels
    at rate R > 0 (the frame count fitting the 32-bit member) reports L / C
    frames, and its duration is the valid time of exactly that many ticks
    over base R, the fraction frames / R.  In particular 9600 interleaved
    samples, 2 channels, 48000 Hz give 4800 frames and 100 ms, and trimming
    that frame to [20ms, 60ms) gives 1920 frames at data offset 1920. *)
Theorem AudioData_ctor_frames_duration aOffset aTime aData aChannels aRate aChannelMap :
  0 < aChannels -> 0 < aRate ->
  AlignedBuffer.Length aData / aChannels <= UINT32_MAX ->
  (exists a,
     AudioData.ctor aOffset aTime aData aChannels aRate aChannelMap = Done a
     /\ AudioData.mFrames a = AlignedBuffer.Length aData / aChannels
     /\ mDuration (AudioData.base a) = TimeUnit.make (AudioData.mFrames a) aRate
     /\ TimeUnit.IsValid (mDuration (AudioData.base a)) = true
     /\ Qeq (TimeUnit.toQ (mDuration (AudioData.base a)))
            (Qmake (AudioData.mFrames a) (Z.to_pos aRate))
     /\ AudioData.mAudioData a = aData
     /\ AudioData.mDataOffset a = 0)
  /\ (AudioData.ctor 0 TimeUnit.Zero stereo_samples 2 48000 3 = Done stereo_frame
      /\ AudioData.mFrames stereo_frame = 4800
      /\ Qeq (TimeUnit.toQ (mDuration (AudioData.base stereo_frame))) (100 # 1000)
      /\ AudioData.SetTrimWindow stereo_frame trim_20_60
         = Done (true, stereo_frame_trimmed)
      /\ AudioData.mFrames stereo_frame_trimmed = 1920
      /\ AudioData.mDataOffset stereo_frame_trimmed = 1920).
Proof.
  intros Hc Hr Hfit. split; [|exact stereo_scenario].
  unfold AudioData.ctor.
  destruct (Z.eqb_spec aChannels 0) as [E|_]; [lia|].
  destruct (Z.eqb_spec aRate 0) as [E|_]; [lia|].
  assert (Hu : is_uint32 (AlignedBuffer.Length aData / aChannels)).
  { split; [|exact Hfit]. apply Z.div_pos; [|exact Hc].
    unfold AlignedBuffer.Length. lia. }
  eexists. split; [reflexivity|]. simpl.
  rewrite (to_uint32_id _ Hu).
  destruct (make_valid (AlignedBuffer.Length aData / aChannels) aRate
              (uint32_is_int64 _ Hu)) as [Hv Hval].
  repeat split; try reflexivity.
  - exact Hv.
  - unfold TimeUnit.toQ. rewrite Hval. simpl. reflexivity.
Qed.

(** Witness for C3: the stereo frame. *)
Lemma AudioData_ctor_frames_duration_witness :
  exists a,
    AudioData.ctor 0 TimeUnit.Zero stereo_samples 2 48000 3 = Done a
    /\ AudioData.mFrames a = AlignedBuffer.Length stereo_samples / 2
    /\ mDuration (AudioData.base a) = TimeUnit.make (AudioData.mFrames a) 48000
    /\ TimeUnit.IsValid (mDuration (AudioData.base a)) = true
    /\ Qeq (TimeUnit.toQ (mDuration (AudioData.base a)))
           (Qmake (AudioData.mFrames a) (Z.to_pos 48000))
    /\ AudioData.mAudioData a = stereo_samples
    /\ AudioData.mDataOffset a = 0.
Proof.
  apply (AudioData_ctor_frames_duration 0 TimeUnit.Zero stereo_samples 2 48000 3).
  - reflexivity.
  - reflexivity.
  - apply Z.leb_le. vm_compute. reflexivity.
Defined.

(* ------------------------------------------------------------------ *)
(** ** AudioData::MoveableData *)

(** C5.  After MoveableData the frame has data offset 0, frame count 0, no
    trim window and no buffer; Data() is then the null pointer with length
    zero, a second MoveableData hands out an empty buffer and leaves the
    frame as it is, and SetTrimWindow refuses to work on it. *)
Theorem MoveableData_then_empty aAllocOk aAllocOk' (a : AudioData.t) aTrim :
  let moved := snd (AudioData.MoveableData aAllocOk a) in
  AudioData.mDataOffset moved = 0
  /\ AudioData.mFrames moved = 0
  /\ AudioData.mTrimWindow moved = None
  /\ AudioData.mAudioData moved = []
  /\ AudioData.Data moved = mkSpan None 0
  /\ AudioData.MoveableData aAllocOk' moved = ([], moved)
  /\ AudioData.SetTrimWindow moved aTrim = Done (false, moved).
Proof.
  simpl. repeat split; reflexivity.
Qed.

(** What the first MoveableData hands out: the samples from the data offset
    on, cut to frames * channels samples. *)
Lemma MoveableData_trimmed_range :
  fst (AudioData.MoveableData true stereo_frame_trimmed)
  = firstn 3840 (skipn 1920 stereo_samples)
  /\ AlignedBuffer.Length (fst (AudioData.MoveableData true stereo_frame_trimmed))
     = 3840.
Proof. split; vm_compute; reflexivity. Qed.

(* ------------------------------------------------------------------ *)
(** ** TimeUnit: the arithmetic is exact on valid times *)

Lemma toQ_unfold a :
  0 < TimeUnit.mBase a ->
  Qnum (TimeUnit.toQ a) = TimeUnit.value a
  /\ Z.pos (Qden (TimeUnit.toQ a)) = TimeUnit.mBase a.
Proof.
  intros H. unfold TimeUnit.toQ. simpl. split; [reflexivity|].
  apply Z2Pos.id. exact H.
Qed.

Lemma ltb_Qlt a b :
  0 < TimeUnit.mBase a -> 0 < TimeUnit.mBase b ->
  (TimeUnit.ltb a b = true <-> (TimeUnit.toQ a < TimeUnit.toQ b)%Q).
Proof.
  intros Ha Hb. unfold TimeUnit.ltb, Qlt.
  destruct (toQ_unfold a Ha) as [-> ->].
  destruct (toQ_unfold b Hb) as [-> ->].
  apply Z.ltb_lt.
Qed.

Lemma gtb_Qlt a b :
  0 < TimeUnit.mBase a -> 0 < TimeUnit.mBase b ->
  (TimeUnit.gtb a b = true <-> (TimeUnit.toQ b < TimeUnit.toQ a)%Q).
Proof.
  intros Ha Hb. unfold TimeUnit.gtb. apply ltb_Qlt; assumption.
Qed.

Lemma leb_Qle a b :
  0 < TimeUnit.mBase a -> 0 < TimeUnit.mBase b ->
  (TimeUnit.leb a b = true <-> (TimeUnit.toQ a <= TimeUnit.toQ b)%Q).
Proof.
  intros Ha Hb. unfold TimeUnit.leb.
  rewrite negb_true_iff.
  split.
  - intros H. apply Qnot_lt_le. intros Hlt.
    apply (gtb_Qlt a b Ha Hb) in Hlt. congruence.
  - intros H. destruct (TimeUnit.gtb a b) eqn:E; [|reflexivity].
    apply (gtb_Qlt a b Ha Hb) in E. exfalso.
    exact (Qlt_not_le _ _ E H).
Qed.

Lemma eqb_Qeq a b :
  0 < TimeUnit.mBase a -> 0 < TimeUnit.mBase b ->
  (TimeUnit.eqb a b = true <-> (TimeUnit.toQ a == TimeUnit.toQ b)%Q).
Proof.
  intros Ha Hb. unfold TimeUnit.eqb, Qeq.
  destruct (toQ_unfold a Ha) as [-> ->].
  destruct (toQ_unfold b Hb) as [-> ->].
  apply Z.eqb_eq.
Qed.

Lemma combine_base op a b :
  0 < TimeUnit.mBase a -> 0 < TimeUnit.mBase b ->
  0 < TimeUnit.mBase (TimeUnit.combine op a b).
Proof.
  intros Ha Hb. unfold TimeUnit.combine.
  destruct (TimeUnit.mBase a =? TimeUnit.mBase b).
  - destruct (TimeUnit.mTicks a), (TimeUnit.mTicks b); simpl; assumption.
  - destruct (TimeUnit.mTicks a), (TimeUnit.mTicks b),
      (CheckedInt64 (TimeUnit.mBase a * TimeUnit.mBase b)); simpl; nia.
Qed.

(** A valid result of [combine] has valid operands and is the exact result:
    over the common base, or over the product of the bases. *)
Lemma combine_valid op a b :
  TimeUnit.IsValid (TimeUnit.combine op a b) = true ->
  TimeUnit.IsValid a = true /\ TimeUnit.IsValid b = true
  /\ ((TimeUnit.mBase a = TimeUnit.mBase b
       /\ TimeUnit.mBase (TimeUnit.combine op a b) = TimeUnit.mBase a
       /\ TimeUnit.value (TimeUnit.combine op a b)
          = op (TimeUnit.value a) (TimeUnit.value b))
      \/ (TimeUnit.mBase a <> TimeUnit.mBase b
          /\ TimeUnit.mBase (TimeUnit.combine op a b)
             = TimeUnit.mBase a * TimeUnit.mBase b
          /\ TimeUnit.value (TimeUnit.combine op a b)
             = op (TimeUnit.value a * TimeUnit.mBase b)
                  (TimeUnit.value b * TimeUnit.mBase a))).
Proof.
  unfold TimeUnit.combine, TimeUnit.IsValid, TimeUnit.value.
  destruct (Z.eqb_spec (TimeUnit.mBase a) (TimeUnit.mBase b)) as [E|E].
  - destruct (TimeUnit.mTicks a) as [va|], (TimeUnit.mTicks b) as [vb|];
      simpl; try discriminate.
    unfold CheckedInt64.
    destruct (Checked.make INT64_MIN INT64_MAX (op va vb)) as [r|] eqn:Hr;
      simpl; try discriminate.
    apply make_Some in Hr. destruct Hr as [_ ->].
    intros _. repeat split. left. repeat split. exact E.
  - destruct (TimeUnit.mTicks a) as [va|], (TimeUnit.mTicks b) as [vb|];
      simpl; try discriminate;
      destruct (CheckedInt64 (TimeUnit.mBase a * TimeUnit.mBase b));
      simpl; try discriminate.
    unfold CheckedInt64.
    destruct (Checked.make INT64_MIN INT64_MAX
                (op (va * TimeUnit.mBase b) (vb * TimeUnit.mBase a)))
      as [r|] eqn:Hr; simpl; try discriminate.
    apply make_Some in Hr. destruct Hr as [_ ->].
    intros _. repeat split. right. repeat split. exact E.
Qed.

Lemma add_toQ a b :
  0 < TimeUnit.mBase a -> 0 < TimeUnit.mBase b ->
  TimeUnit.IsValid (TimeUnit.add a b) = true ->
  (TimeUnit.toQ (TimeUnit.add a b) == TimeUnit.toQ a + TimeUnit.toQ b)%Q.
Proof.
  intros Ha Hb Hv.
  pose proof (combine_base Z.add a b Ha Hb) as Hbase.
  apply combine_valid in Hv.
  destruct Hv as (_ & _ & Hcases).
  fold (TimeUnit.add a b) in *.
  unfold Qeq, Qplus.
  destruct (toQ_unfold _ Hbase) as [-> ->].
  unfold TimeUnit.toQ. simpl.
  rewrite Pos2Z.inj_mul, !Z2Pos.id by assumption.
  destruct Hcases as [(E & -> & ->) | (E & -> & ->)].
  - rewrite E. ring.
  - ring.
Qed.

Lemma sub_toQ a b :
  0 < TimeUnit.mBase a -> 0 < TimeUnit.mBase b ->
  TimeUnit.IsValid (TimeUnit.sub a b) = true ->
  (TimeUnit.toQ (TimeUnit.sub a b) == TimeUnit.toQ a - TimeUnit.toQ b)%Q.
Proof.
  intros Ha Hb Hv.
  pose proof (combine_base Z.sub a b Ha Hb) as Hbase.
  apply combine_valid in Hv.
  destruct Hv as (_ & _ & Hcases).
  fold (TimeUnit.sub a b) in *.
  unfold Qeq, Qminus, Qplus, Qopp.
  destruct (toQ_unfold _ Hbase) as [-> ->].
  unfold TimeUnit.toQ. simpl.
  rewrite Pos2Z.inj_mul, !Z2Pos.id by assumption.
  destruct Hcases as [(E & -> & ->) | (E & -> & ->)].
  - rewrite E. ring.
  - ring.
Qed.

Lemma add_base a b :
  0 < TimeUnit.mBase a -> 0 < TimeUnit.mBase b ->
  0 < TimeUnit.mBase (TimeUnit.add a b).
Proof. apply combine_base. Qed.

Lemma sub_base a b :
  0 < TimeUnit.mBase a -> 0 < TimeUnit.mBase b ->
  0 < TimeUnit.mBase (TimeUnit.sub a b).
Proof. apply combine_base. Qed.

Lemma IsZero_toQ a :
  0 < TimeUnit.mBase a ->
  (TimeUnit.IsZero a = true <-> (TimeUnit.toQ a == 0)%Q).
Proof.
  intros Ha. unfold TimeUnit.IsZero, TimeUnit.toQ, Qeq. simpl.
  rewrite Z.eqb_eq. lia.
Qed.

(* ------------------------------------------------------------------ *)
(** ** VideoData::UpdateTimestamp and VideoData::UpdateDuration *)

(** C8, as amended.  UpdateTimestamp(ts) stores ts and recomputes the
    duration as end time minus ts, so that, the new end time being valid
    (nothing overflowed), the end time is what it was before the call.
    UpdateDuration(d) stores d and leaves the timestamp as it is: the end
    time becomes timestamp + d.  (That the arguments and the recomputed
    duration are not negative is asserted in debug builds only.) *)
Theorem UpdateTimestamp_preserves_end_time (v : VideoData.t) (aTimestamp d : TimeUnit.t) :
  0 < TimeUnit.mBase (mTime (VideoData.base v)) ->
  0 < TimeUnit.mBase (mDuration (VideoData.base v)) ->
  0 < TimeUnit.mBase aTimestamp ->
  TimeUnit.IsValid
    (GetEndTime (VideoData.base (VideoData.UpdateTimestamp v aTimestamp))) = true ->
  (mTime (VideoData.base (VideoData.UpdateTimestamp v aTimestamp)) = aTimestamp
   /\ mDuration (VideoData.base (VideoData.UpdateTimestamp v aTimestamp))
      = TimeUnit.sub (GetEndTime (VideoData.base v)) aTimestamp
   /\ TimeUnit.eqb
        (GetEndTime (VideoData.base (VideoData.UpdateTimestamp v aTimestamp)))
        (GetEndTime (VideoData.base v)) = true)
  /\ (mDuration (VideoData.base (VideoData.UpdateDuration v d)) = d
      /\ mTime (VideoData.base (VideoData.UpdateDuration v d))
         = mTime (VideoData.base v)
      /\ GetEndTime (VideoData.base (VideoData.UpdateDuration v d))
         = TimeUnit.add (mTime (VideoData.base v)) d).
Proof.
  intros Ht Hd Hts Hvalid.
  split; [|repeat split; reflexivity].
  split; [reflexivity|]. split; [reflexivity|].
  unfold VideoData.UpdateTimestamp, GetEndTime in *. simpl in *.
  set (e := TimeUnit.add (mTime (VideoData.base v)) (mDuration (VideoData.base v))) in *.
  assert (He : 0 < TimeUnit.mBase e) by (apply add_base; assumption).
  assert (Hs : 0 < TimeUnit.mBase (TimeUnit.sub e aTimestamp))
    by (apply sub_base; assumption).
  pose proof (add_toQ _ _ Hts Hs Hvalid) as Hsum.
  apply combine_valid in Hvalid. destruct Hvalid as (_ & Hsv & _).
  pose proof (sub_toQ _ _ He Hts Hsv) as Hdiff.
  apply eqb_Qeq; [apply add_base; assumption | exact He |].
  rewrite Hsum, Hdiff. ring.
Qed.

(** Witness for C8: moving the frame at 0
    that lasts 40 ms to 10 ms. *)
Lemma UpdateTimestamp_preserves_end_time_witness :
  (mTime (VideoData.base (VideoData.UpdateTimestamp a_video (usecs 10000)))
   = usecs 10000
   /\ mDuration (VideoData.base (VideoData.UpdateTimestamp a_video (usecs 10000)))
      = TimeUnit.sub (GetEndTime (VideoData.base a_video)) (usecs 10000)
   /\ TimeUnit.eqb
        (GetEndTime (VideoData.base (VideoData.UpdateTimestamp a_video (usecs 10000))))
        (GetEndTime (VideoData.base a_video)) = true)
  /\ (mDuration (VideoData.base (VideoData.UpdateDuration a_video (usecs 20000)))
      = usecs 20000
      /\ mTime (VideoData.base (VideoData.UpdateDuration a_video (usecs 20000)))
         = mTime (VideoData.base a_video)
      /\ GetEndTime (VideoData.base (VideoData.UpdateDuration a_video (usecs 20000)))
         = TimeUnit.add (mTime (VideoData.base a_video)) (usecs 20000)).
Proof.
  apply (UpdateTimestamp_preserves_end_time a_video (usecs 10000) (usecs 20000));
    reflexivity.
Defined.

(** C8, as stated, fails for UpdateDuration: the frame at 0 that lasts 40 ms
    ends at 40 ms; after UpdateDuration(20 ms) its timestamp is still 0 and
    it ends at 20 ms. *)
Lemma UpdateDuration_changes_end_time :
  GetEndTime (VideoData.base a_video) = usecs 40000
  /\ mTime (VideoData.base (VideoData.UpdateDuration a_video (usecs 20000)))
     = usecs 0
  /\ GetEndTime (VideoData.base (VideoData.UpdateDuration a_video (usecs 20000)))
     = usecs 20000
  /\ TimeUnit.eqb
       (GetEndTime (VideoData.base (VideoData.UpdateDuration a_video (usecs 20000))))
       (GetEndTime (VideoData.base a_video)) = false.
Proof. repeat split; vm_compute; reflexivity. Qed.

(* ------------------------------------------------------------------ *)
(** ** AudioData::SetTrimWindow: what is rejected *)

Lemma originalEnd_base a :
  audio_bases_positive a -> 0 < TimeUnit.mBase (originalEnd a).
Proof.
  intros (_ & _ & Ho & Hr). unfold originalEnd. apply add_base; assumption.
Qed.

Lemma GetEndTime_base a :
  audio_bases_positive a -> 0 < TimeUnit.mBase (GetEndTime (AudioData.base a)).
Proof.
  intros (Ht & Hd & _ & _). unfold GetEndTime. apply add_base; assumption.
Qed.

(** C2, as amended.  For a frame whose current end (timestamp + duration)
    is not after originalTime + originalDuration, and a trim interval whose
    start is before originalTime, or whose end is after originalTime +
    originalDuration, or whose difference to originalTime overflows,
    SetTrimWindow returns false and the frame is the one it was. *)
Theorem SetTrimWindow_outside_is_rejected (a : AudioData.t) (aTrim : TimeInterval) :
  within_original a ->
  0 < TimeUnit.mBase (mEnd aTrim) ->
  outside_original a aTrim ->
  AudioData.SetTrimWindow a aTrim = Done (false, a).
Proof.
  intros Hw Hbe Hout.
  unfold AudioData.SetTrimWindow.
  destruct (AlignedBuffer.to_bool (AudioData.mAudioData a)) eqn:Ebuf;
    [|reflexivity].
  destruct (Hw Ebuf) as [Hpos Hinv]. simpl.
  destruct (TimeUnit.ltb (mStart aTrim) (AudioData.mOriginalTime a)) eqn:Elt;
    [reflexivity|].
  destruct (TimeUnit.gtb (mEnd aTrim) (GetEndTime (AudioData.base a))) eqn:Egt;
    [reflexivity|].
  simpl.
  destruct Hout as [H | [H | [H | H]]].
  - congruence.
  - exfalso.
    pose proof (originalEnd_base a Hpos) as Hoe.
    pose proof (GetEndTime_base a Hpos) as Hce.
    apply (gtb_Qlt _ _ Hbe Hoe) in H.
    apply (leb_Qle _ _ Hce Hoe) in Hinv.
    assert (Hgt : TimeUnit.gtb (mEnd aTrim) (GetEndTime (AudioData.base a)) = true).
    { apply (gtb_Qlt _ _ Hbe Hce). eapply Qle_lt_trans; eassumption. }
    congruence.
  - rewrite H. reflexivity.
  - rewrite H. simpl. rewrite orb_true_r. reflexivity.
Qed.

(** Witness for C2: the stereo frame spans
    [0, 100ms]; the interval [20ms, 120ms] ends after it. *)
Lemma SetTrimWindow_outside_is_rejected_witness :
  AudioData.SetTrimWindow stereo_frame (mkTimeInterval (usecs 20000) (usecs 120000))
  = Done (false, stereo_frame).
Proof.
  apply (SetTrimWindow_outside_is_rejected stereo_frame
           (mkTimeInterval (usecs 20000) (usecs 120000))).
  - unfold within_original, audio_bases_positive.
    intros _. repeat split; vm_compute; reflexivity.
  - reflexivity.
  - unfold outside_original. right. left. vm_compute. reflexivity.
Defined.

(** C2, as stated, fails: SetTrimWindow compares the end of the interval
    with the current end of the frame.  The stereo frame, built by the
    constructor, accepts the interval [60ms, 20ms], whose start is after its
    end; the negative frame count wraps to 4294965376 and the frame then
    ends far after its original 100 ms.  On that frame the interval
    [50ms, 100.001ms], which ends after originalTime + originalDuration, is
    accepted and changes frame count, data offset, timestamp, duration and
    trim window. *)
Lemma SetTrimWindow_accepts_end_after_original :
  AudioData.ctor 0 TimeUnit.Zero stereo_samples 2 48000 3 = Done stereo_frame
  /\ AudioData.SetTrimWindow stereo_frame trim_60_20
     = Done (true, stereo_frame_reversed)
  /\ TimeUnit.eqb (originalEnd stereo_frame_reversed) (usecs 100000) = true
  /\ TimeUnit.gtb (mEnd trim_50_100001) (originalEnd stereo_frame_reversed) = true
  /\ outside_original stereo_frame_reversed trim_50_100001
  /\ AudioData.SetTrimWindow stereo_frame_reversed trim_50_100001
     = Done (true, stereo_frame_beyond)
  /\ AudioData.mFrames stereo_frame_reversed = 4294965376
  /\ AudioData.mFrames stereo_frame_beyond = 2400
  /\ AudioData.mDataOffset stereo_frame_reversed = 5760
  /\ AudioData.mDataOffset stereo_frame_beyond = 4800.
Proof.
  repeat split; try (vm_compute; reflexivity).
  unfold outside_original. right. left. vm_compute. reflexivity.
Qed.

(** The invariant holds of every frame the constructor builds. *)
Lemma ctor_within_original aOffset aTime aData aChannels aRate aChannelMap a :
  0 < TimeUnit.mBase aTime -> 0 <= aRate ->
  AudioData.ctor aOffset aTime aData aChannels aRate aChannelMap = Done a ->
  within_original a
  /\ AudioData.mTrimWindow a = None
  /\ mTime (AudioData.base a) = AudioData.mOriginalTime a
  /\ mDuration (AudioData.base a) = originalDuration a.
Proof.
  intros Hb Hr0. unfold AudioData.ctor.
  destruct (Z.eqb_spec aChannels 0); [discriminate|].
  destruct (Z.eqb_spec aRate 0); [discriminate|].
  intros H. inversion H; subst a; clear H.
  unfold within_original, audio_bases_positive, originalEnd, originalDuration,
    originalFrames, GetEndTime. simpl.
  repeat split; try assumption; try lia.
  unfold TimeUnit.leb, TimeUnit.gtb, TimeUnit.ltb.
  rewrite Z.ltb_irrefl. reflexivity.
Qed.

Lemma ToTicksAtRate_le a r :
  0 < TimeUnit.mBase a -> 0 < r -> 0 <= TimeUnit.value a ->
  0 <= TimeUnit.ToTicksAtRate a r
  /\ (Qmake (TimeUnit.ToTicksAtRate a r) (Z.to_pos r) <= TimeUnit.toQ a)%Q.
Proof.
  intros Hb Hr Hv. unfold TimeUnit.ToTicksAtRate.
  destruct (Z.eqb_spec r (TimeUnit.mBase a)) as [E|E].
  - split; [exact Hv|]. subst r. unfold TimeUnit.toQ. apply Qle_refl.
  - rewrite Z.quot_div_nonneg by nia.
    split; [apply Z.div_pos; nia|].
    unfold Qle, TimeUnit.toQ. simpl. rewrite !Z2Pos.id by assumption.
    pose proof (Z.mul_div_le (TimeUnit.value a * r) (TimeUnit.mBase a) Hb).
    lia.
Qed.

Lemma toQ_make_uint32 f r :
  is_uint32 f -> TimeUnit.toQ (TimeUnit.make f r) = Qmake f (Z.to_pos r).
Proof.
  intros Hf. unfold TimeUnit.toQ.
  destruct (make_valid f r (uint32_is_int64 f Hf)) as [_ ->]. reflexivity.
Qed.

Lemma toQ_nonneg_value a :
  0 < TimeUnit.mBase a -> (0 <= TimeUnit.toQ a)%Q -> 0 <= TimeUnit.value a.
Proof.
  intros Hb. unfold Qle, TimeUnit.toQ. simpl. lia.
Qed.

Lemma value_invalid a : TimeUnit.IsValid a = false -> TimeUnit.value a = 0.
Proof.
  unfold TimeUnit.IsValid, TimeUnit.value.
  destruct (TimeUnit.mTicks a); simpl; [discriminate | reflexivity].
Qed.

Lemma Qmake_le_num (p q : Z) (d : positive) : p <= q -> (Qmake p d <= Qmake q d)%Q.
Proof.
  intros H. unfold Qle. simpl. nia.
Qed.

(** The frame count SetTrimWindow computes spans no more than the interval. *)
Lemma trimmed_frames_fit (o : TimeUnit.t) (aTrim : TimeInterval) (r : Z) :
  0 < TimeUnit.mBase o -> 0 < r -> interval_wf aTrim ->
  TimeUnit.IsValid (TimeUnit.sub (mStart aTrim) o) = true ->
  TimeUnit.IsValid (TimeUnit.sub (mEnd aTrim) o) = true ->
  let frameCountAfterTrim :=
    TimeUnit.ToTicksAtRate
      (TimeUnit.sub (TimeUnit.sub (mEnd aTrim) o) (TimeUnit.sub (mStart aTrim) o)) r in
  0 <= frameCountAfterTrim
  /\ (Qmake frameCountAfterTrim (Z.to_pos r)
      <= TimeUnit.toQ (mEnd aTrim) - TimeUnit.toQ (mStart aTrim))%Q.
Proof.
  intros Ho Hr (Hbs & Hbe & Hle) Htb Hta. simpl.
  set (tb := TimeUnit.sub (mStart aTrim) o) in *.
  set (ta := TimeUnit.sub (mEnd aTrim) o) in *.
  assert (Hbtb : 0 < TimeUnit.mBase tb) by (apply sub_base; assumption).
  assert (Hbta : 0 < TimeUnit.mBase ta) by (apply sub_base; assumption).
  assert (Hbd : 0 < TimeUnit.mBase (TimeUnit.sub ta tb))
    by (apply sub_base; assumption).
  pose proof (sub_toQ _ _ Hbs Ho Htb) as Qtb. fold tb in Qtb.
  pose proof (sub_toQ _ _ Hbe Ho Hta) as Qta. fold ta in Qta.
  apply (leb_Qle _ _ Hbs Hbe) in Hle.
  assert (Hd : (0 <= TimeUnit.toQ (TimeUnit.sub ta tb)
                <= TimeUnit.toQ (mEnd aTrim) - TimeUnit.toQ (mStart aTrim))%Q).
  { destruct (TimeUnit.IsValid (TimeUnit.sub ta tb)) eqn:Ev.
    - pose proof (sub_toQ _ _ Hbta Hbtb Ev) as Qd.
      rewrite Qd, Qta, Qtb. split; lra.
    - apply value_invalid in Ev. unfold TimeUnit.toQ at 1 2. rewrite Ev.
      split; [unfold Qle; simpl; lia|].
      assert (H0 : (Qmake 0 (Z.to_pos (TimeUnit.mBase (TimeUnit.sub ta tb))) == 0)%Q)
        by reflexivity.
      rewrite H0. lra. }
  destruct Hd as [Hd0 Hd1].
  pose proof (toQ_nonneg_value _ Hbd Hd0) as Hv.
  destruct (ToTicksAtRate_le _ r Hbd Hr Hv) as [Hf0 Hf1].
  split; [exact Hf0|].
  eapply Qle_trans; eassumption.
Qed.

(** X13.  SetTrimWindow keeps the invariant: when a frame whose current end
    is not after its original end is trimmed with an interval whose start is
    not after its end, and the end time of the result is valid, the current
    end of the result is not after the original end either. *)
Lemma SetTrimWindow_within_original a aTrim flag a' :
  within_original a -> interval_wf aTrim ->
  AudioData.SetTrimWindow a aTrim = Done (flag, a') ->
  TimeUnit.IsValid (GetEndTime (AudioData.base a')) = true ->
  within_original a'.
Proof.
  intros Hw Hi Hrun Hvalid.
  unfold AudioData.SetTrimWindow in Hrun.
  destruct (AlignedBuffer.to_bool (AudioData.mAudioData a)) eqn:Ebuf;
    [|inversion Hrun; subst; exact Hw].
  simpl in Hrun.
  pose proof (Hw Ebuf) as [Hpos Hinv]. pose proof Hpos as (Hbt & Hbd & Hbo & Hr).
  pose proof Hi as (Hbs & Hbe & Hse).
  destruct (TimeUnit.ltb (mStart aTrim) (AudioData.mOriginalTime a)
            || TimeUnit.gtb (mEnd aTrim) (GetEndTime (AudioData.base a))) eqn:Erange;
    [inversion Hrun; subst; exact Hw|].
  apply orb_false_iff in Erange. destruct Erange as [_ Egt].
  destruct (negb (TimeUnit.IsValid (TimeUnit.sub (mStart aTrim) (AudioData.mOriginalTime a)))
            || negb (TimeUnit.IsValid (TimeUnit.sub (mEnd aTrim) (AudioData.mOriginalTime a))))
    eqn:Eov; [inversion Hrun; subst; exact Hw|].
  apply orb_false_iff in Eov. destruct Eov as [Htb Hta].
  apply negb_false_iff in Htb, Hta.
  destruct (AudioData.isNothing (AudioData.mTrimWindow a)
            && TimeUnit.IsZero (TimeUnit.sub (mStart aTrim) (AudioData.mOriginalTime a))
            && TimeUnit.eqb (TimeUnit.sub (mEnd aTrim) (AudioData.mOriginalTime a))
                 (mDuration (AudioData.base a)));
    [inversion Hrun; subst; exact Hw|].
  destruct (trimmed_frames_fit _ aTrim _ Hbo Hr Hi Htb Hta) as [Hf0 Hf1].
  set (tb := TimeUnit.sub (mStart aTrim) (AudioData.mOriginalTime a)) in *.
  set (ta := TimeUnit.sub (mEnd aTrim) (AudioData.mOriginalTime a)) in *.
  set (fc := TimeUnit.ToTicksAtRate (TimeUnit.sub ta tb) (AudioData.mRate a)) in *.
  assert (Hbtb : 0 < TimeUnit.mBase tb) by (apply sub_base; assumption).
  pose proof (sub_toQ _ _ Hbs Hbo Htb) as Qtb. fold tb in Qtb.
  pose proof (originalEnd_base a Hpos) as Hboe.
  pose proof (GetEndTime_base a Hpos) as Hbce.
  apply (leb_Qle _ _ Hbce Hboe) in Hinv.
  assert (Hec : (TimeUnit.toQ (mEnd aTrim) <= TimeUnit.toQ (GetEndTime (AudioData.base a)))%Q).
  { apply (leb_Qle _ _ Hbe Hbce). unfold TimeUnit.leb. rewrite Egt. reflexivity. }
  apply (leb_Qle _ _ Hbs Hbe) in Hse.
  (* every way out builds the frame with some frame count f *)
  assert (Hfinish : forall f,
    is_uint32 f ->
    (Qmake f (Z.to_pos (AudioData.mRate a))
     <= TimeUnit.toQ (mEnd aTrim) - TimeUnit.toQ (mStart aTrim))%Q ->
    forall dataOffset,
    a' = AudioData.mk
           (set_mDuration
              (set_mTime (AudioData.base a)
                 (TimeUnit.add (AudioData.mOriginalTime a) tb))
              (TimeUnit.make f (AudioData.mRate a)))
           (AudioData.mChannels a) (AudioData.mChannelMap a) (AudioData.mRate a)
           (AudioData.mOriginalTime a) (Some aTrim) (AudioData.mAudioData a)
           f dataOffset ->
    within_original a').
  { intros f Hf Hfq dataOffset Ha'. subst a'.
    unfold GetEndTime in Hvalid. simpl in Hvalid.
    assert (Hbn : 0 < TimeUnit.mBase (TimeUnit.add (AudioData.mOriginalTime a) tb))
      by (apply add_base; assumption).
    pose proof (add_toQ _ (TimeUnit.make f (AudioData.mRate a)) Hbn Hr Hvalid)
      as Qend.
    pose proof Hvalid as Hv2. apply combine_valid in Hv2.
    destruct Hv2 as (Hvt & _ & _).
    pose proof (add_toQ _ _ Hbo Hbtb Hvt) as Qtime.
    rewrite (toQ_make_uint32 _ _ Hf) in Qend.
    intros _. split.
    - unfold audio_bases_positive. simpl. repeat split; assumption.
    - unfold GetEndTime. simpl.
      change (originalEnd _) with (originalEnd a).
      apply leb_Qle; [apply add_base; assumption | exact Hboe |].
      rewrite Qend, Qtime, Qtb. lra. }
  destruct (fc >? AlignedBuffer.Length (AudioData.mAudioData a) / AudioData.mChannels a).
  - destruct (TimeUnit.IsBase tb (AudioData.mRate a)); [discriminate|].
    injection Hrun as _ Ha'.
    eapply (Hfinish 0); [| | symmetry; exact Ha'].
    + unfold is_uint32, UINT32_MAX. lia.
    + assert (H0 : (Qmake 0 (Z.to_pos (AudioData.mRate a)) == 0)%Q) by reflexivity.
      rewrite H0. lra.
  - injection Hrun as _ Ha'.
    eapply (Hfinish (to_uint32 fc)); [| | symmetry; exact Ha'].
    + apply to_uint32_range.
    + eapply Qle_trans; [|exact Hf1].
      apply Qmake_le_num. apply to_uint32_le. exact Hf0.
Qed.

(** MoveableData keeps the invariant: the frame no longer holds a buffer. *)
Lemma MoveableData_within_original aAllocOk a :
  within_original (snd (AudioData.MoveableData aAllocOk a)).
Proof.
  unfold within_original. simpl. discriminate.
Qed.

(** X14.  AudioData::AdjustForStartTime keeps the invariant, the end times
    staying valid: timestamp and original time move back together, so the
    current end stays no later than the original end. *)
Lemma AdjustForStartTime_within_original a aStartTime :
  within_original a ->
  0 < TimeUnit.mBase aStartTime ->
  TimeUnit.IsValid (GetEndTime (AudioData.base a)) = true ->
  TimeUnit.IsValid (originalEnd a) = true ->
  let a' := snd (AudioData.AdjustForStartTime a aStartTime) in
  TimeUnit.IsValid (GetEndTime (AudioData.base a')) = true ->
  TimeUnit.IsValid (originalEnd a') = true ->
  within_original a'.
Proof.
  intros Hw Hbs Hv1 Hv2. simpl. intros Hv3 Hv4 Hbuf. simpl in Hbuf.
  destruct (Hw Hbuf) as [Hpos Hinv]. pose proof Hpos as (Hbt & Hbd & Hbo & Hr).
  pose proof (originalEnd_base a Hpos) as Hboe.
  pose proof (GetEndTime_base a Hpos) as Hbce.
  apply (leb_Qle _ _ Hbce Hboe) in Hinv.
  unfold GetEndTime, originalEnd, originalDuration, originalFrames in *.
  simpl in *.
  set (od := TimeUnit.make _ (AudioData.mRate a)) in *.
  assert (Hbt' : 0 < TimeUnit.mBase (TimeUnit.sub (mTime (AudioData.base a)) aStartTime))
    by (apply sub_base; assumption).
  assert (Hbo' : 0 < TimeUnit.mBase (TimeUnit.sub (AudioData.mOriginalTime a) aStartTime))
    by (apply sub_base; assumption).
  assert (Hbod : 0 < TimeUnit.mBase od) by exact Hr.
  pose proof (add_toQ _ _ Hbt Hbd Hv1) as Q1.
  pose proof (add_toQ _ _ Hbo Hbod Hv2) as Q2.
  pose proof (add_toQ _ _ Hbt' Hbd Hv3) as Q3.
  pose proof (add_toQ _ _ Hbo' Hbod Hv4) as Q4.
  apply combine_valid in Hv3. destruct Hv3 as (Hv3 & _ & _).
  apply combine_valid in Hv4. destruct Hv4 as (Hv4 & _ & _).
  pose proof (sub_toQ _ _ Hbt Hbs Hv3) as Q5.
  pose proof (sub_toQ _ _ Hbo Hbs Hv4) as Q6.
  split.
  - unfold audio_bases_positive. simpl. repeat split; assumption.
  - apply leb_Qle; [apply add_base; assumption | apply add_base; assumption |].
    rewrite Q3, Q4, Q5, Q6. rewrite Q1, Q2 in Hinv. lra.
Qed.

(** X15.  SetOriginalStartTime keeps the invariant of a frame whose time is
    its original time (what the function asserts), the end times staying
    valid. *)
Lemma SetOriginalStartTime_within_original a aStartTime :
  within_original a ->
  0 < TimeUnit.mBase aStartTime ->
  TimeUnit.eqb (mTime (AudioData.base a)) (AudioData.mOriginalTime a) = true ->
  TimeUnit.IsValid (GetEndTime (AudioData.base a)) = true ->
  TimeUnit.IsValid (originalEnd a) = true ->
  let a' := AudioData.SetOriginalStartTime a aStartTime in
  TimeUnit.IsValid (GetEndTime (AudioData.base a')) = true ->
  TimeUnit.IsValid (originalEnd a') = true ->
  within_original a'.
Proof.
  intros Hw Hbs Heq Hv1 Hv2. simpl. intros Hv3 Hv4 Hbuf. simpl in Hbuf.
  destruct (Hw Hbuf) as [Hpos Hinv]. pose proof Hpos as (Hbt & Hbd & Hbo & Hr).
  pose proof (originalEnd_base a Hpos) as Hboe.
  pose proof (GetEndTime_base a Hpos) as Hbce.
  apply (leb_Qle _ _ Hbce Hboe) in Hinv.
  apply (eqb_Qeq _ _ Hbt Hbo) in Heq.
  unfold GetEndTime, originalEnd, originalDuration, originalFrames in *.
  simpl in *.
  set (od := TimeUnit.make _ (AudioData.mRate a)) in *.
  assert (Hbod : 0 < TimeUnit.mBase od) by exact Hr.
  pose proof (add_toQ _ _ Hbt Hbd Hv1) as Q1.
  pose proof (add_toQ _ _ Hbo Hbod Hv2) as Q2.
  pose proof (add_toQ _ _ Hbs Hbd Hv3) as Q3.
  pose proof (add_toQ _ _ Hbs Hbod Hv4) as Q4.
  split.
  - unfold audio_bases_positive. simpl. repeat split; assumption.
  - apply leb_Qle; [apply add_base; assumption | apply add_base; assumption |].
    rewrite Q3, Q4. rewrite Q1, Q2 in Hinv. lra.
Qed.

(* ------------------------------------------------------------------ *)
(** ** AudioData::SetTrimWindow: applying a window twice *)

Lemma sub_self a :
  TimeUnit.IsValid a = true ->
  TimeUnit.IsValid (TimeUnit.sub a a) = true
  /\ TimeUnit.IsZero (TimeUnit.sub a a) = true.
Proof.
  unfold TimeUnit.IsValid, TimeUnit.IsZero, TimeUnit.value, TimeUnit.sub,
    TimeUnit.combine.
  rewrite Z.eqb_refl.
  destruct (TimeUnit.mTicks a) as [v|]; simpl; [|discriminate].
  intros _. rewrite Z.sub_diag. split; reflexivity.
Qed.

Lemma ltb_irrefl a : TimeUnit.ltb a a = false.
Proof. unfold TimeUnit.ltb. apply Z.ltb_irrefl. Qed.

(** The full window on a frame that was never trimmed changes nothing. *)
Lemma SetTrimWindow_full_window_untrimmed a :
  untrimmed a -> audio_bases_positive a ->
  TimeUnit.IsValid (TimeUnit.sub (originalEnd a) (AudioData.mOriginalTime a)) = true ->
  AudioData.SetTrimWindow a (full_window a) = Done (true, a).
Proof.
  intros (Hbuf & Htrim & Htime & Hdur) Hpos Hvalid.
  pose proof Hpos as (Hbt & Hbd & Hbo & Hr).
  pose proof (originalEnd_base a Hpos) as Hboe.
  pose proof Hvalid as Hv. apply combine_valid in Hv.
  destruct Hv as (Hvoe & Hvo & _).
  destruct (sub_self _ Hvo) as [Hs1 Hs2].
  assert (Hend : GetEndTime (AudioData.base a) = originalEnd a).
  { unfold GetEndTime, originalEnd. rewrite Htime, Hdur. reflexivity. }
  assert (Heq : TimeUnit.eqb (TimeUnit.sub (originalEnd a) (AudioData.mOriginalTime a))
                  (mDuration (AudioData.base a)) = true).
  { apply eqb_Qeq; [apply sub_base; assumption | assumption |].
    rewrite (sub_toQ _ _ Hboe Hbo Hvalid).
    unfold originalEnd in Hvoe |- *.
    rewrite (add_toQ _ (originalDuration a) Hbo Hr Hvoe). rewrite Hdur. ring. }
  unfold AudioData.SetTrimWindow, full_window. simpl.
  rewrite Hbuf, Hend. simpl.
  rewrite ltb_irrefl. unfold TimeUnit.gtb. rewrite ltb_irrefl. simpl.
  rewrite Hs1, Hvalid, Htrim, Hs2, Heq. reflexivity.
Qed.

(** Whenever two calls in a row with one window both return true, the
    second changes nothing. *)
Lemma SetTrimWindow_twice a aTrim a1 a2 :
  AudioData.SetTrimWindow a aTrim = Done (true, a1) ->
  AudioData.SetTrimWindow a1 aTrim = Done (true, a2) ->
  a2 = a1.
Proof.
  intros H1 H2. pose proof H1 as H1'.
  unfold AudioData.SetTrimWindow in H1.
  destruct (negb (AlignedBuffer.to_bool (AudioData.mAudioData a))) eqn:E1;
    [discriminate|].
  destruct (TimeUnit.ltb (mStart aTrim) (AudioData.mOriginalTime a)
            || TimeUnit.gtb (mEnd aTrim) (GetEndTime (AudioData.base a)));
    [discriminate|].
  destruct (negb (TimeUnit.IsValid (TimeUnit.sub (mStart aTrim) (AudioData.mOriginalTime a)))
            || negb (TimeUnit.IsValid (TimeUnit.sub (mEnd aTrim) (AudioData.mOriginalTime a))))
    eqn:E3; [discriminate|].
  destruct (AudioData.isNothing (AudioData.mTrimWindow a)
            && TimeUnit.IsZero (TimeUnit.sub (mStart aTrim) (AudioData.mOriginalTime a))
            && TimeUnit.eqb (TimeUnit.sub (mEnd aTrim) (AudioData.mOriginalTime a))
                 (mDuration (AudioData.base a))).
  - injection H1 as Ha. subst a1. rewrite H1' in H2. injection H2 as Ha.
    symmetry. exact Ha.
  - destruct (TimeUnit.ToTicksAtRate
                (TimeUnit.sub (TimeUnit.sub (mEnd aTrim) (AudioData.mOriginalTime a))
                              (TimeUnit.sub (mStart aTrim) (AudioData.mOriginalTime a)))
                (AudioData.mRate a)
              >? AlignedBuffer.Length (AudioData.mAudioData a) / AudioData.mChannels a)
      eqn:E5.
    + destruct (TimeUnit.IsBase (TimeUnit.sub (mStart aTrim) (AudioData.mOriginalTime a))
                  (AudioData.mRate a)) eqn:E6; [discriminate|].
      injection H1 as Ha. subst a1.
      unfold AudioData.SetTrimWindow in H2.
      cbn [AudioData.mAudioData AudioData.mOriginalTime AudioData.mTrimWindow
           AudioData.mRate AudioData.mChannels AudioData.isNothing] in H2.
      rewrite E1, E3, E5, E6 in H2.
      match type of H2 with
      | (if ?c then _ else _) = _ => destruct c; [discriminate|]
      end.
      cbn [andb] in H2. injection H2 as Ha. subst a2. reflexivity.
    + injection H1 as Ha. subst a1.
      unfold AudioData.SetTrimWindow in H2.
      cbn [AudioData.mAudioData AudioData.mOriginalTime AudioData.mTrimWindow
           AudioData.mRate AudioData.mChannels AudioData.isNothing] in H2.
      rewrite E1, E3, E5 in H2.
      match type of H2 with
      | (if ?c then _ else _) = _ => destruct c; [discriminate|]
      end.
      cbn [andb] in H2. injection H2 as Ha. subst a2. reflexivity.
Qed.

(** C4, as amended.  On a frame that holds its buffer and was never
    trimmed, the window over its full original range (whose arithmetic does
    not overflow) is accepted, twice in a row, and changes nothing: frame
    count and data offset stay what they were.  On any frame, whenever two
    calls in a row with one window both return true, the second leaves the
    frame, frame count and data offset included, as the first left it. *)
Theorem SetTrimWindow_full_window_idempotent (a : AudioData.t) :
  untrimmed a -> audio_bases_positive a ->
  TimeUnit.IsValid (TimeUnit.sub (originalEnd a) (AudioData.mOriginalTime a)) = true ->
  (exists a1 a2,
     AudioData.SetTrimWindow a (full_window a) = Done (true, a1)
     /\ AudioData.SetTrimWindow a1 (full_window a) = Done (true, a2)
     /\ AudioData.mFrames a2 = AudioData.mFrames a1
     /\ AudioData.mDataOffset a2 = AudioData.mDataOffset a1
     /\ a1 = a /\ a2 = a)
  /\ (forall (b : AudioData.t) (aTrim : TimeInterval) (b1 b2 : AudioData.t),
        AudioData.SetTrimWindow b aTrim = Done (true, b1) ->
        AudioData.SetTrimWindow b1 aTrim = Done (true, b2) ->
        AudioData.mFrames b2 = AudioData.mFrames b1
        /\ AudioData.mDataOffset b2 = AudioData.mDataOffset b1
        /\ b2 = b1).
Proof.
  intros Hu Hpos Hvalid. split.
  - pose proof (SetTrimWindow_full_window_untrimmed a Hu Hpos Hvalid) as H.
    exists a, a. repeat split; assumption.
  - intros b aTrim b1 b2 H1 H2.
    pose proof (SetTrimWindow_twice b aTrim b1 b2 H1 H2) as ->.
    repeat split.
Qed.

(** Witness for C4: the stereo frame. *)
Lemma SetTrimWindow_full_window_idempotent_witness :
  exists a1 a2,
    AudioData.SetTrimWindow stereo_frame (full_window stereo_frame)
    = Done (true, a1)
    /\ AudioData.SetTrimWindow a1 (full_window stereo_frame) = Done (true, a2)
    /\ AudioData.mFrames a2 = AudioData.mFrames a1
    /\ AudioData.mDataOffset a2 = AudioData.mDataOffset a1
    /\ a1 = stereo_frame /\ a2 = stereo_frame.
Proof.
  apply (SetTrimWindow_full_window_idempotent stereo_frame).
  - unfold untrimmed. repeat split; vm_compute; reflexivity.
  - unfold audio_bases_positive. repeat split; vm_compute; reflexivity.
  - vm_compute. reflexivity.
Defined.

(** C4, as stated, fails: once MoveableData has taken its buffer, the stereo
    frame rejects the window over its full original range, [0, 100ms]; and
    so does the stereo frame trimmed to [20ms, 60ms), which ends before the
    end of that window. *)
Lemma SetTrimWindow_full_window_rejected :
  (TimeUnit.eqb (mStart (full_window stereo_frame)) (usecs 0) = true
   /\ TimeUnit.eqb (mEnd (full_window stereo_frame)) (usecs 100000) = true
   /\ AudioData.SetTrimWindow (snd (AudioData.MoveableData true stereo_frame))
        (full_window stereo_frame)
      = Done (false, snd (AudioData.MoveableData true stereo_frame)))
  /\ (AudioData.SetTrimWindow stereo_frame trim_20_60
      = Done (true, stereo_frame_trimmed)
      /\ full_window stereo_frame_trimmed = full_window stereo_frame
      /\ AudioData.SetTrimWindow stereo_frame_trimmed
           (full_window stereo_frame_trimmed)
         = Done (false, stereo_frame_trimmed)).
Proof. repeat split; vm_compute; reflexivity. Qed.

(* ================================================================== *)
(** * Further properties *)

(* ------------------------------------------------------------------ *)
(** ** Crypto scheme names *)

(** X1.  The name of a scheme set parses back to a scheme exactly when the
    set holds one of cenc, cbcs, cbcs-1-9 and no other of them; the name of
    a set without any of them and of a set with several of them parses to
    None.  In particular the name of the set of one scheme parses back to
    that scheme. *)
Theorem StringToCryptoScheme_of_set_name (aSchemes : CryptoSchemeSet) :
  StringToCryptoScheme (CryptoSchemeSetToString aSchemes)
  = match contains aSchemes Cenc, contains aSchemes Cbcs,
          contains aSchemes Cbcs_1_9 with
    | true, false, false => Cenc
    | false, true, false => Cbcs
    | false, false, true => Cbcs_1_9
    | _, _, _ => None_scheme
    end
  /\ (forall s : CryptoScheme,
        StringToCryptoScheme (CryptoSchemeSetToString [s]) = s).
Proof.
  split.
  - unfold CryptoSchemeSetToString.
    destruct (contains aSchemes Cenc), (contains aSchemes Cbcs),
      (contains aSchemes Cbcs_1_9); reflexivity.
  - intros s. destruct s; reflexivity.
Qed.

(** X2.  The name of a scheme set is never the empty string, and it is
    "none" exactly when the set holds none of cenc, cbcs and cbcs-1-9. *)
Theorem CryptoSchemeSetToString_none (aSchemes : CryptoSchemeSet) :
  CryptoSchemeSetToString aSchemes <> EmptyString
  /\ (CryptoSchemeSetToString aSchemes = "none"%string
      <-> contains aSchemes Cenc = false
          /\ contains aSchemes Cbcs = false
          /\ contains aSchemes Cbcs_1_9 = false).
Proof.
  unfold CryptoSchemeSetToString.
  destruct (contains aSchemes Cenc), (contains aSchemes Cbcs),
    (contains aSchemes Cbcs_1_9); simpl;
    (split; [discriminate | split; [intros H; try discriminate | intros (H1 & H2 & H3); try discriminate]]);
    auto.
Qed.

(* ------------------------------------------------------------------ *)
(** ** QuantizableBuffer::To8BitPerChannel *)

Lemma to_int32_id z : 0 <= z <= INT32_MAX -> to_int32 z = z.
Proof.
  unfold to_int32, INT32_MAX. intros H.
  rewrite Z.mod_small by lia. lia.
Qed.

Lemma half_stride s :
  is_uint32 s -> to_int32 (s / 2) = s / 2 /\ is_uint32 (s / 2).
Proof.
  unfold is_uint32, UINT32_MAX. intros H.
  assert (0 <= s / 2 <= INT32_MAX).
  { unfold INT32_MAX. split; [apply Z.div_pos; lia|].
    assert (s / 2 < 2 ^ 31) by (apply Z.div_lt_upper_bound; lia). lia. }
  split; [apply to_int32_id; assumption|].
  unfold INT32_MAX in *. lia.
Qed.

Lemma to_size_t_id z : 0 <= z < 2 ^ 64 -> to_size_t z = z.
Proof. intros H. unfold to_size_t. apply Z.mod_small. exact H. Qed.

(** X3.  When To8BitPerChannel succeeds on planes of 32-bit members whose
    8-bit plane lengths fit 32 bits, the buffer is 8 bits deep, the strides
    are half the 16-bit strides, widths and heights are kept, and the three
    planes lie back to back in the buffer the bin handed out: Y at its start,
    Cb right after the Y rows, Cr right after the Cb rows, and the length
    asked of the bin is the Y length plus twice the Cb length. *)
Theorem To8BitPerChannel_packs_planes aGetBuffer aLibyuv q q' :
  plane_wf (q_Y q) -> plane_wf (q_Cb q) ->
  mStride (q_Y q) / 2 * mHeight (q_Y q) <= UINT32_MAX ->
  mStride (q_Cb q) / 2 * mHeight (q_Cb q) <= UINT32_MAX ->
  To8BitPerChannel aGetBuffer aLibyuv q = (Q_NS_OK, q') ->
  q_mColorDepth q' = COLOR_8
  /\ mStride (q_Y q') = mStride (q_Y q) / 2
  /\ mStride (q_Cb q') = mStride (q_Cb q) / 2
  /\ mStride (q_Cr q') = mStride (q_Cb q) / 2
  /\ (mWidth (q_Y q'), mHeight (q_Y q')) = (mWidth (q_Y q), mHeight (q_Y q))
  /\ (mWidth (q_Cb q'), mHeight (q_Cb q')) = (mWidth (q_Cb q), mHeight (q_Cb q))
  /\ (mWidth (q_Cr q'), mHeight (q_Cr q')) = (mWidth (q_Cr q), mHeight (q_Cr q))
  /\ m8bpcPlanes q' = Some (mData (q_Y q'))
  /\ aGetBuffer (mAllocatedLength q') = Some (mData (q_Y q'))
  /\ mData (q_Cb q') = mData (q_Y q') + mStride (q_Y q') * mHeight (q_Y q')
  /\ mData (q_Cr q') = mData (q_Cb q') + mStride (q_Cb q') * mHeight (q_Cb q')
  /\ mAllocatedLength q'
     = mStride (q_Y q') * mHeight (q_Y q')
       + 2 * (mStride (q_Cb q') * mHeight (q_Cb q')).
Proof.
  intros (_ & Hyh & Hys) (_ & Hch & Hcs) Hyl Hcl Hrun.
  destruct (half_stride _ Hys) as [Ey Hyu].
  destruct (half_stride _ Hcs) as [Ec Hcu].
  unfold To8BitPerChannel in Hrun. rewrite Ey, Ec in Hrun.
  assert (Hy0 : 0 <= mStride (q_Y q) / 2 * mHeight (q_Y q)).
  { unfold is_uint32 in *. nia. }
  assert (Hc0 : 0 <= mStride (q_Cb q) / 2 * mHeight (q_Cb q)).
  { unfold is_uint32 in *. nia. }
  rewrite (to_uint32_id (mStride (q_Y q) / 2 * mHeight (q_Y q))) in Hrun
    by (split; assumption).
  rewrite (to_uint32_id (mStride (q_Cb q) / 2 * mHeight (q_Cb q))) in Hrun
    by (split; assumption).
  rewrite (to_uint32_id _ Hyu), (to_uint32_id _ Hcu) in Hrun.
  rewrite (to_size_t_id (mStride (q_Cb q) / 2 * mHeight (q_Cb q) * 2)) in Hrun
    by (unfold UINT32_MAX in *; lia).
  rewrite to_size_t_id in Hrun by (unfold UINT32_MAX in *; lia).
  set (total := mStride (q_Y q) / 2 * mHeight (q_Y q)
                + mStride (q_Cb q) / 2 * mHeight (q_Cb q) * 2) in *.
  destruct (aGetBuffer total) as [dest|] eqn:Eget; [|discriminate].
  destruct (convertFunc (q_mColorDepth q) (q_mChromaSubsampling q));
    [|discriminate].
  destruct (negb (aLibyuv f =? 0)); [discriminate|].
  injection Hrun as Hq. subst q'.
  cbn [q_Y q_Cb q_Cr q_mColorDepth m8bpcPlanes mAllocatedLength set_plane
       mStride mData mWidth mHeight].
  repeat split; try reflexivity; try exact Eget.
  unfold total. ring.
Qed.

(** Witness for X3: the 10-bit 4:2:0 buffer of 8x4 pixels. *)
Lemma To8BitPerChannel_packs_planes_witness :
  let q := a_quantizable in
  let q' := snd (To8BitPerChannel a_bin libyuv_ok a_quantizable) in
  q_mColorDepth q' = COLOR_8
  /\ mStride (q_Y q') = mStride (q_Y q) / 2
  /\ mStride (q_Cb q') = mStride (q_Cb q) / 2
  /\ mStride (q_Cr q') = mStride (q_Cb q) / 2
  /\ (mWidth (q_Y q'), mHeight (q_Y q')) = (mWidth (q_Y q), mHeight (q_Y q))
  /\ (mWidth (q_Cb q'), mHeight (q_Cb q')) = (mWidth (q_Cb q), mHeight (q_Cb q))
  /\ (mWidth (q_Cr q'), mHeight (q_Cr q')) = (mWidth (q_Cr q), mHeight (q_Cr q))
  /\ m8bpcPlanes q' = Some (mData (q_Y q'))
  /\ a_bin (mAllocatedLength q') = Some (mData (q_Y q'))
  /\ mData (q_Cb q') = mData (q_Y q') + mStride (q_Y q') * mHeight (q_Y q')
  /\ mData (q_Cr q') = mData (q_Cb q') + mStride (q_Cb q') * mHeight (q_Cb q')
  /\ mAllocatedLength q'
     = mStride (q_Y q') * mHeight (q_Y q')
       + 2 * (mStride (q_Cb q') * mHeight (q_Cb q')).
Proof.
  apply (To8BitPerChannel_packs_planes a_bin libyuv_ok a_quantizable).
  - unfold plane_wf, is_uint32, UINT32_MAX; simpl; lia.
  - unfold plane_wf, is_uint32, UINT32_MAX; simpl; lia.
  - apply Z.leb_le; reflexivity.
  - apply Z.leb_le; reflexivity.
  - reflexivity.
Defined.

(** X4.  To8BitPerChannel succeeds exactly when the bin hands out a buffer,
    the subsampling is one of 4:2:0, 4:2:2, 4:4:4 and the libyuv routine
    returns 0; it reports out-of-memory exactly when the bin hands out
    nothing.  Whenever it fails, planes, depth and subsampling are what they
    were; the bin is set and the buffer it handed out, if any, is kept for
    the destructor to recycle. *)
Theorem To8BitPerChannel_failure_keeps_planes aGetBuffer aLibyuv q :
  let r := fst (To8BitPerChannel aGetBuffer aLibyuv q) in
  let q' := snd (To8BitPerChannel aGetBuffer aLibyuv q) in
  (r = Q_NS_OK <->
     exists dest f,
       aGetBuffer (mAllocatedLength q') = Some dest
       /\ convertFunc (q_mColorDepth q) (q_mChromaSubsampling q) = Some f
       /\ aLibyuv f = 0)
  /\ (r = Q_NS_ERROR_OUT_OF_MEMORY <-> aGetBuffer (mAllocatedLength q') = None)
  /\ (r <> Q_NS_OK ->
        q_Y q' = q_Y q /\ q_Cb q' = q_Cb q /\ q_Cr q' = q_Cr q
        /\ q_mColorDepth q' = q_mColorDepth q
        /\ q_mChromaSubsampling q' = q_mChromaSubsampling q
        /\ mRecycleBin q' = true
        /\ m8bpcPlanes q' = aGetBuffer (mAllocatedLength q')).
Proof.
  unfold To8BitPerChannel.
  set (total := to_size_t _).
  destruct (aGetBuffer total) as [dest|] eqn:Eget;
    [destruct (convertFunc (q_mColorDepth q) (q_mChromaSubsampling q))
       as [f|] eqn:Ef;
     [destruct (Z.eqb_spec (aLibyuv f) 0) as [E|E]|]|];
    cbn [fst snd negb q_Y q_Cb q_Cr q_mColorDepth q_mChromaSubsampling
         mRecycleBin m8bpcPlanes mAllocatedLength];
    rewrite ?Eget;
    (split; [split | split; [split|]]);
    intros; try discriminate; try congruence;
    try (repeat split; reflexivity).
  - exists dest, f. repeat split; assumption.
  - destruct H as (d & g & _ & Hg & Hl). congruence.
  - destruct H as (d & g & _ & Hg & _). discriminate.
  - destruct H as (d & g & Hd & _). discriminate.
Qed.

(* ------------------------------------------------------------------ *)
(** ** ValidateBufferAndPicture and CreateAndCopyData: what is accepted *)

Lemma CheckedUint32_Some v r :
  CheckedUint32 v = Some r <-> (0 <= v <= UINT32_MAX /\ r = v).
Proof. unfold CheckedUint32. apply make_Some. Qed.

Lemma checked_limit_Some a b r :
  Checked.add 0 UINT32_MAX (CheckedUint32 a) (CheckedUint32 b) = Some r
  <-> (0 <= a <= UINT32_MAX /\ 0 <= b <= UINT32_MAX /\ a + b <= UINT32_MAX
       /\ r = a + b).
Proof.
  split.
  - intros H. apply checked_add_Some in H.
    destruct H as (u & v & Hu & Hv & -> & Hr).
    apply CheckedUint32_Some in Hu, Hv.
    destruct Hu as [Hu ->], Hv as [Hv ->]. lia.
  - intros (Ha & Hb & Hab & ->).
    assert (Ea : CheckedUint32 a = Some a) by (apply CheckedUint32_Some; lia).
    assert (Eb : CheckedUint32 b = Some b) by (apply CheckedUint32_Some; lia).
    rewrite Ea, Eb. simpl. apply make_Some. lia.
Qed.

Lemma ValidateBufferAndPicture_ok_sound cfg aBuffer aPicture :
  Code (VideoData.ValidateBufferAndPicture cfg aBuffer aPicture) = NS_OK ->
  buffer_and_picture_ok cfg aBuffer aPicture.
Proof.
  unfold VideoData.ValidateBufferAndPicture, buffer_and_picture_ok, picture_fits.
  destruct (Z.eqb_spec (mWidth (Cb aBuffer)) (mWidth (Cr aBuffer))) as [Ew|Ew];
    [|simpl; discriminate].
  destruct (Z.eqb_spec (mHeight (Cb aBuffer)) (mHeight (Cr aBuffer))) as [Eh|Eh];
    [|simpl; discriminate].
  simpl.
  destruct (Z.leb_spec (width aPicture) 0) as [Hw|Hw]; [simpl; discriminate|].
  destruct (Z.leb_spec (height aPicture) 0) as [Hht|Hht]; [simpl; discriminate|].
  simpl.
  destruct (VideoData.ValidatePlane cfg (Y aBuffer)); [|simpl; discriminate].
  destruct (VideoData.ValidatePlane cfg (Cb aBuffer)); [|simpl; discriminate].
  destruct (VideoData.ValidatePlane cfg (Cr aBuffer)); [|simpl; discriminate].
  simpl.
  destruct (Checked.add 0 UINT32_MAX (CheckedUint32 (x aPicture))
              (CheckedUint32 (width aPicture))) as [xl|] eqn:Ex;
    [|simpl; discriminate].
  destruct (Checked.add 0 UINT32_MAX (CheckedUint32 (y aPicture))
              (CheckedUint32 (height aPicture))) as [yl|] eqn:Ey;
    [|simpl; discriminate].
  apply checked_limit_Some in Ex, Ey.
  destruct Ex as (Hx & _ & _ & ->). destruct Ey as (Hy & _ & _ & ->).
  destruct (Z.gtb_spec (x aPicture + width aPicture) (mStride (Y aBuffer)));
    [simpl; discriminate|].
  destruct (Z.gtb_spec (y aPicture + height aPicture) (mHeight (Y aBuffer)));
    [simpl; discriminate|].
  intros _. repeat split; lia.
Qed.

(** X5.  For a Y plane of 32-bit members, ValidateBufferAndPicture returns
    NS_OK exactly when the chroma planes have one size, the picture
    rectangle is not empty, the three planes pass ValidatePlane, and the
    rectangle lies inside the Y plane: x and y are not negative, x + width
    is at most the Y stride and y + height at most the Y height. *)
Theorem ValidateBufferAndPicture_accepts_iff cfg aBuffer aPicture :
  is_uint32 (mStride (Y aBuffer)) -> is_uint32 (mHeight (Y aBuffer)) ->
  (Code (VideoData.ValidateBufferAndPicture cfg aBuffer aPicture) = NS_OK
   <-> buffer_and_picture_ok cfg aBuffer aPicture).
Proof.
  intros Hs Hh.
  unfold VideoData.ValidateBufferAndPicture, buffer_and_picture_ok, picture_fits.
  destruct (Z.eqb_spec (mWidth (Cb aBuffer)) (mWidth (Cr aBuffer))) as [Ew|Ew];
    [|simpl; split; [discriminate | tauto]].
  destruct (Z.eqb_spec (mHeight (Cb aBuffer)) (mHeight (Cr aBuffer))) as [Eh|Eh];
    [|simpl; split; [discriminate | tauto]].
  simpl.
  destruct (Z.leb_spec (width aPicture) 0) as [Hw|Hw];
    [simpl; split; [discriminate | lia]|].
  destruct (Z.leb_spec (height aPicture) 0) as [Hht|Hht];
    [simpl; split; [discriminate | lia]|].
  simpl.
  destruct (VideoData.ValidatePlane cfg (Y aBuffer));
    [|simpl; split; [discriminate | intros H; decompose [and] H; discriminate]].
  destruct (VideoData.ValidatePlane cfg (Cb aBuffer));
    [|simpl; split; [discriminate | intros H; decompose [and] H; discriminate]].
  destruct (VideoData.ValidatePlane cfg (Cr aBuffer));
    [|simpl; split; [discriminate | intros H; decompose [and] H; discriminate]].
  simpl.
  destruct (Checked.add 0 UINT32_MAX (CheckedUint32 (x aPicture))
              (CheckedUint32 (width aPicture))) as [xl|] eqn:Ex.
  - apply checked_limit_Some in Ex. destruct Ex as (Hx & Hxw & Hxs & ->).
    destruct (Checked.add 0 UINT32_MAX (CheckedUint32 (y aPicture))
                (CheckedUint32 (height aPicture))) as [yl|] eqn:Ey.
    + apply checked_limit_Some in Ey. destruct Ey as (Hy & Hyh & Hys & ->).
      destruct (Z.gtb_spec (x aPicture + width aPicture) (mStride (Y aBuffer)));
        [simpl; split; [discriminate | lia]|].
      destruct (Z.gtb_spec (y aPicture + height aPicture) (mHeight (Y aBuffer)));
        [simpl; split; [discriminate | lia]|].
      simpl. split; [intros _; repeat split; lia | reflexivity].
    + simpl. split; [discriminate|].
      intros (_ & _ & _ & _ & _ & _ & _ & Hy0 & Hx0 & Hfx & Hfy).
      assert (E : Checked.add 0 UINT32_MAX (CheckedUint32 (y aPicture))
                    (CheckedUint32 (height aPicture))
                  = Some (y aPicture + height aPicture)).
      { apply checked_limit_Some. unfold is_uint32 in *. lia. }
      congruence.
  - simpl. split; [discriminate|].
    intros (_ & _ & _ & _ & _ & _ & _ & Hx0 & Hy0 & Hfx & Hfy).
    assert (E : Checked.add 0 UINT32_MAX (CheckedUint32 (x aPicture))
                  (CheckedUint32 (width aPicture))
                = Some (x aPicture + width aPicture)).
    { apply checked_limit_Some. unfold is_uint32 in *. lia. }
    congruence.
Qed.


(** Witness for X5: the 1920x1080 frame and its full picture rectangle. *)
Lemma ValidateBufferAndPicture_accepts_iff_witness :
  Code (VideoData.ValidateBufferAndPicture a_build hd_buffer hd_picture) = NS_OK
  <-> buffer_and_picture_ok a_build hd_buffer hd_picture.
Proof.
  apply (ValidateBufferAndPicture_accepts_iff a_build hd_buffer hd_picture);
    unfold is_uint32, UINT32_MAX; simpl; lia.
Defined.

(** X6.  When CreateAndCopyData is given an ImageContainer and returns a
    VideoData, the buffer and the picture rectangle passed the validation (so
    the rectangle lies inside the Y plane), the frame holds an image made of
    the planes of the buffer with the picture rectangle that was asked for,
    and offset, time, duration, keyframe flag, timecode and display size are
    the arguments. *)
Theorem CreateAndCopyData_success
    cfg aInfo container aOffset aTime aDuration aBuffer aKeyframe aTimecode
    aPicture aAllocator v :
  VideoData.CreateAndCopyData cfg aInfo (Some container) aOffset aTime
    aDuration aBuffer aKeyframe aTimecode aPicture aAllocator = Done v ->
  buffer_and_picture_ok cfg aBuffer aPicture
  /\ (exists img,
        VideoData.mImage v = Some img
        /\ image_data img
           = Some (VideoData.ConstructPlanarYCbCrData aInfo aBuffer aPicture))
  /\ mPictureRect (VideoData.ConstructPlanarYCbCrData aInfo aBuffer aPicture)
     = aPicture
  /\ (uses_io_surface cfg aAllocator = true
      \/ (CreatePlanarYCbCrImage container = true
          /\ CopyData container
               (VideoData.ConstructPlanarYCbCrData aInfo aBuffer aPicture)
             = NS_OK))
  /\ VideoData.base v = mkMediaData aOffset aTime aTimecode aDuration aKeyframe
  /\ VideoData.v_mDisplay v = mDisplay aInfo.
Proof.
  intros Hrun.
  unfold VideoData.CreateAndCopyData in Hrun.
  destruct (NS_FAILED (Code (VideoData.ValidateBufferAndPicture cfg aBuffer aPicture)))
    eqn:Ev; [discriminate|].
  assert (Hok : Code (VideoData.ValidateBufferAndPicture cfg aBuffer aPicture) = NS_OK).
  { destruct (Code (VideoData.ValidateBufferAndPicture cfg aBuffer aPicture));
      simpl in Ev; congruence. }
  apply ValidateBufferAndPicture_ok_sound in Hok.
  split; [exact Hok|].
  fold (uses_io_surface cfg aAllocator) in Hrun.
  destruct (uses_io_surface cfg aAllocator).
  - injection Hrun as <-. simpl.
    split; [eexists; split; reflexivity|]. repeat split. left. reflexivity.
  - destruct (CreatePlanarYCbCrImage container); [|discriminate].
    simpl in Hrun.
    destruct (CopyData container
                (VideoData.ConstructPlanarYCbCrData aInfo aBuffer aPicture))
      eqn:Ec; simpl in Hrun; try discriminate.
    injection Hrun as <-. simpl.
    split; [eexists; split; reflexivity|]. repeat split. right. split; reflexivity.
Qed.

(** Witness for X6: the 1920x1080 frame, its full picture rectangle and a
    container whose image takes the copy. *)
Lemma CreateAndCopyData_success_witness :
  buffer_and_picture_ok a_build hd_buffer hd_picture
  /\ (exists img,
        VideoData.mImage hd_video = Some img
        /\ image_data img
           = Some (VideoData.ConstructPlanarYCbCrData hd_info hd_buffer hd_picture))
  /\ mPictureRect (VideoData.ConstructPlanarYCbCrData hd_info hd_buffer hd_picture)
     = hd_picture
  /\ (uses_io_surface a_build None = true
      \/ (CreatePlanarYCbCrImage a_container = true
          /\ CopyData a_container
               (VideoData.ConstructPlanarYCbCrData hd_info hd_buffer hd_picture)
             = NS_OK))
  /\ VideoData.base hd_video
     = mkMediaData 0 TimeUnit.Zero TimeUnit.Zero (usecs 40000) true
  /\ VideoData.v_mDisplay hd_video = mDisplay hd_info.
Proof.
  apply (CreateAndCopyData_success a_build hd_info a_container 0
           TimeUnit.Zero (usecs 40000) hd_buffer true TimeUnit.Zero
           hd_picture None hd_video).
  reflexivity.
Defined.

(** X7.  With an ImageContainer, CreateAndCopyData never aborts, and when it
    fails the error is one of three: the InvalidArgument result of the
    validation with one of its four reasons; OutOfMemory, when the buffer is
    valid but the container hands out no image; or the failure code of the
    image's CopyData, when the buffer is valid and an image was created. *)
Theorem CreateAndCopyData_failures
    cfg aInfo container aOffset aTime aDuration aBuffer aKeyframe aTimecode
    aPicture aAllocator :
  let result :=
    VideoData.CreateAndCopyData cfg aInfo (Some container) aOffset aTime
      aDuration aBuffer aKeyframe aTimecode aPicture aAllocator in
  let validation := VideoData.ValidateBufferAndPicture cfg aBuffer aPicture in
  is_aborted result = false
  /\ (forall r, result = Failed r ->
        (r = validation /\ Code r = NS_ERROR_INVALID_ARG
         /\ In (Message r) reason_strings)
        \/ (Code validation = NS_OK /\ Code r = NS_ERROR_OUT_OF_MEMORY
            /\ CreatePlanarYCbCrImage container = false)
        \/ (Code validation = NS_OK /\ CreatePlanarYCbCrImage container = true
            /\ Code r = CopyData container
                          (VideoData.ConstructPlanarYCbCrData aInfo aBuffer aPicture)
            /\ NS_FAILED (Code r) = true)).
Proof.
  simpl. unfold VideoData.CreateAndCopyData.
  destruct (ValidateBufferAndPicture_code cfg aBuffer aPicture) as [Hok | [Hc Hm]].
  - rewrite Hok. simpl.
    destruct (XP_MACOSX cfg &&
              match aAllocator with
              | Some k => negb (IsSoftwareWebRender k) && MacIOSurfaceSetData k
              | None => false
              end).
    + split; [reflexivity | discriminate].
    + destruct (CreatePlanarYCbCrImage container) eqn:Ecreate; simpl.
      * destruct (NS_FAILED (CopyData container
                    (VideoData.ConstructPlanarYCbCrData aInfo aBuffer aPicture)))
          eqn:Ecopy.
        -- split; [reflexivity|]. intros r Hr. injection Hr as <-.
           right. right. simpl. auto.
        -- split; [reflexivity | discriminate].
      * split; [reflexivity|]. intros r Hr. injection Hr as <-.
        right. left. simpl. auto.
  - rewrite Hc. simpl. split; [reflexivity|].
    intros r Hr. injection Hr as <-. left. auto.
Qed.

(* ------------------------------------------------------------------ *)
(** ** VideoData::AdjustForStartTime *)

(** X9.  VideoData::AdjustForStartTime returns true exactly when the
    subtraction does not overflow, also when the new timestamp is negative;
    then the timestamp is the old one minus the start time, exactly, the
    duration and the image are untouched, and the end time, when it is
    valid before and after, moves back by the start time as well. *)
Theorem VideoData_AdjustForStartTime_shifts (v : VideoData.t) (aStartTime : TimeUnit.t) :
  0 < TimeUnit.mBase (mTime (VideoData.base v)) ->
  0 < TimeUnit.mBase (mDuration (VideoData.base v)) ->
  0 < TimeUnit.mBase aStartTime ->
  let flag := fst (VideoData_AdjustForStartTime v aStartTime) in
  let v' := snd (VideoData_AdjustForStartTime v aStartTime) in
  flag = TimeUnit.IsValid (TimeUnit.sub (mTime (VideoData.base v)) aStartTime)
  /\ mDuration (VideoData.base v') = mDuration (VideoData.base v)
  /\ VideoData.mImage v' = VideoData.mImage v
  /\ (flag = true ->
      (TimeUnit.toQ (mTime (VideoData.base v'))
       == TimeUnit.toQ (mTime (VideoData.base v)) - TimeUnit.toQ aStartTime)%Q
      /\ (TimeUnit.IsValid (GetEndTime (VideoData.base v)) = true ->
          TimeUnit.IsValid (GetEndTime (VideoData.base v')) = true ->
          (TimeUnit.toQ (GetEndTime (VideoData.base v'))
           == TimeUnit.toQ (GetEndTime (VideoData.base v))
              - TimeUnit.toQ aStartTime)%Q)).
Proof.
  intros Ht Hd Hs. simpl.
  repeat split.
  - apply sub_toQ; assumption.
  - intros Hv Hv'. unfold GetEndTime in *. simpl in *.
    rewrite (add_toQ _ _ (sub_base _ _ Ht Hs) Hd Hv').
    rewrite (add_toQ _ _ Ht Hd Hv).
    rewrite (sub_toQ _ _ Ht Hs H). ring.
Qed.

(** Witness for X9: the frame at 0 adjusted by a start time of 10 ms. *)
Lemma VideoData_AdjustForStartTime_shifts_witness :
  fst (VideoData_AdjustForStartTime a_video (usecs 10000)) = true
  /\ TimeUnit.IsNegative
       (mTime (VideoData.base (snd (VideoData_AdjustForStartTime a_video (usecs 10000)))))
     = true
  /\ (TimeUnit.toQ
        (mTime (VideoData.base (snd (VideoData_AdjustForStartTime a_video (usecs 10000)))))
      == TimeUnit.toQ (mTime (VideoData.base a_video)) - TimeUnit.toQ (usecs 10000))%Q.
Proof.
  destruct (VideoData_AdjustForStartTime_shifts a_video (usecs 10000))
    as (Hflag & _ & _ & Hshift); try reflexivity.
  split; [reflexivity|]. split; [reflexivity|].
  destruct (Hshift eq_refl) as [Hq _]. exact Hq.
Defined.

(* ------------------------------------------------------------------ *)
(** ** AudioData: what SetTrimWindow keeps *)

(** X10.  Whenever SetTrimWindow returns, it has not touched the buffer, the
    channel count, the channel map, the rate, the original time, the offset,
    the timecode or the keyframe flag; and when it returns false it has not
    changed anything at all. *)
Theorem SetTrimWindow_frame a aTrim flag a' :
  AudioData.SetTrimWindow a aTrim = Done (flag, a') ->
  (flag = false -> a' = a)
  /\ AudioData.mAudioData a' = AudioData.mAudioData a
  /\ AudioData.mChannels a' = AudioData.mChannels a
  /\ AudioData.mChannelMap a' = AudioData.mChannelMap a
  /\ AudioData.mRate a' = AudioData.mRate a
  /\ AudioData.mOriginalTime a' = AudioData.mOriginalTime a
  /\ mOffset (AudioData.base a') = mOffset (AudioData.base a)
  /\ mTimecode (AudioData.base a') = mTimecode (AudioData.base a)
  /\ mKeyframe (AudioData.base a') = mKeyframe (AudioData.base a).
Proof.
  unfold AudioData.SetTrimWindow.
  repeat match goal with
         | |- context [if ?c then _ else _] => destruct c
         end;
    intros H; try discriminate; injection H as <- <-; simpl;
    repeat split; intros; try discriminate; reflexivity.
Qed.

(** Witness for X10: trimming the stereo frame to [20ms, 60ms). *)
Lemma SetTrimWindow_frame_witness :
  (true = false -> stereo_frame_trimmed = stereo_frame)
  /\ AudioData.mAudioData stereo_frame_trimmed = AudioData.mAudioData stereo_frame
  /\ AudioData.mChannels stereo_frame_trimmed = AudioData.mChannels stereo_frame
  /\ AudioData.mChannelMap stereo_frame_trimmed = AudioData.mChannelMap stereo_frame
  /\ AudioData.mRate stereo_frame_trimmed = AudioData.mRate stereo_frame
  /\ AudioData.mOriginalTime stereo_frame_trimmed
     = AudioData.mOriginalTime stereo_frame
  /\ mOffset (AudioData.base stereo_frame_trimmed)
     = mOffset (AudioData.base stereo_frame)
  /\ mTimecode (AudioData.base stereo_frame_trimmed)
     = mTimecode (AudioData.base stereo_frame)
  /\ mKeyframe (AudioData.base stereo_frame_trimmed)
     = mKeyframe (AudioData.base stereo_frame).
Proof.
  apply (SetTrimWindow_frame stereo_frame trim_20_60 true stereo_frame_trimmed).
  vm_compute. reflexivity.
Defined.

Lemma Qmake_sum_le (a b c : Z) (p : positive) :
  (Qmake a p + Qmake b p <= Qmake c p)%Q -> a + b <= c.
Proof.
  unfold Qle, Qplus. simpl. rewrite Pos2Z.inj_mul. nia.
Qed.

Lemma not_ltb_Qle a b :
  0 < TimeUnit.mBase a -> 0 < TimeUnit.mBase b ->
  TimeUnit.ltb a b = false -> (TimeUnit.toQ b <= TimeUnit.toQ a)%Q.
Proof.
  intros Ha Hb H. apply Qnot_lt_le. intros Hlt.
  apply (ltb_Qlt a b Ha Hb) in Hlt. congruence.
Qed.

(** The frame offset and the frame count SetTrimWindow computes stay, taken
    together, within the frames the buffer holds. *)
Lemma trimmed_range_fits a aTrim :
  AlignedBuffer.to_bool (AudioData.mAudioData a) = true ->
  within_original a -> audio_wf a -> interval_wf aTrim ->
  TimeUnit.IsValid (originalEnd a) = true ->
  TimeUnit.ltb (mStart aTrim) (AudioData.mOriginalTime a) = false ->
  TimeUnit.gtb (mEnd aTrim) (GetEndTime (AudioData.base a)) = false ->
  TimeUnit.IsValid (TimeUnit.sub (mStart aTrim) (AudioData.mOriginalTime a)) = true ->
  TimeUnit.IsValid (TimeUnit.sub (mEnd aTrim) (AudioData.mOriginalTime a)) = true ->
  let frameOffset :=
    TimeUnit.ToTicksAtRate
      (TimeUnit.sub (mStart aTrim) (AudioData.mOriginalTime a)) (AudioData.mRate a) in
  let frameCountAfterTrim :=
    TimeUnit.ToTicksAtRate
      (TimeUnit.sub (TimeUnit.sub (mEnd aTrim) (AudioData.mOriginalTime a))
                    (TimeUnit.sub (mStart aTrim) (AudioData.mOriginalTime a)))
      (AudioData.mRate a) in
  0 <= frameOffset /\ 0 <= frameCountAfterTrim
  /\ frameOffset + frameCountAfterTrim
     <= AlignedBuffer.Length (AudioData.mAudioData a) / AudioData.mChannels a.
Proof.
  intros Ebuf Hw (Hch & _ & _ & Hfit) Hi Hvoe Elt Egt Htb Hta. simpl.
  destruct (Hw Ebuf) as [Hpos Hinv]. pose proof Hpos as (Hbt & Hbd & Hbo & Hr).
  pose proof Hi as (Hbs & Hbe & Hse).
  destruct (trimmed_frames_fit _ aTrim _ Hbo Hr Hi Htb Hta) as [Hf0 Hf1].
  set (tb := TimeUnit.sub (mStart aTrim) (AudioData.mOriginalTime a)) in *.
  set (ta := TimeUnit.sub (mEnd aTrim) (AudioData.mOriginalTime a)) in *.
  set (fc := TimeUnit.ToTicksAtRate (TimeUnit.sub ta tb) (AudioData.mRate a)) in *.
  assert (Hbtb : 0 < TimeUnit.mBase tb) by (apply sub_base; assumption).
  pose proof (sub_toQ _ _ Hbs Hbo Htb) as Qtb. fold tb in Qtb.
  pose proof (originalEnd_base a Hpos) as Hboe.
  pose proof (GetEndTime_base a Hpos) as Hbce.
  apply (leb_Qle _ _ Hbce Hboe) in Hinv.
  pose proof (not_ltb_Qle _ _ Hbs Hbo Elt) as Hso.
  assert (Hec : (TimeUnit.toQ (mEnd aTrim)
                 <= TimeUnit.toQ (GetEndTime (AudioData.base a)))%Q).
  { apply (not_ltb_Qle _ _ Hbce Hbe). exact Egt. }
  assert (Hvtb : 0 <= TimeUnit.value tb).
  { apply toQ_nonneg_value; [exact Hbtb|]. rewrite Qtb. lra. }
  destruct (ToTicksAtRate_le tb _ Hbtb Hr Hvtb) as [Ho0 Ho1].
  assert (HL : 0 <= AlignedBuffer.Length (AudioData.mAudioData a) / AudioData.mChannels a).
  { apply Z.div_pos; [unfold AlignedBuffer.Length; lia | exact Hch]. }
  assert (Hod : TimeUnit.toQ (originalDuration a)
                = Qmake (AlignedBuffer.Length (AudioData.mAudioData a) / AudioData.mChannels a)
                        (Z.to_pos (AudioData.mRate a))).
  { unfold originalDuration, originalFrames.
    rewrite (to_uint32_id _ (conj HL Hfit)).
    apply toQ_make_uint32. split; assumption. }
  unfold originalEnd in Hvoe, Hinv.
  rewrite (add_toQ _ (originalDuration a) Hbo Hr Hvoe) in Hinv.
  rewrite Hod in Hinv.
  split; [exact Ho0|]. split; [exact Hf0|].
  apply (Qmake_sum_le _ _ _ (Z.to_pos (AudioData.mRate a))).
  rewrite Qtb in Ho1. lra.
Qed.

(** X11.  On a frame that has a channel, lies within its original range and
    whose samples lie inside its buffer, SetTrimWindow with an interval whose
    start is not after its end never fails the release assertion: it
    returns, and the samples of the frame it leaves, from the new data
    offset over the new frame count, still lie inside the buffer. *)
Theorem SetTrimWindow_stays_in_bounds (a : AudioData.t) (aTrim : TimeInterval) :
  within_original a -> audio_wf a -> span_in_bounds a -> interval_wf aTrim ->
  TimeUnit.IsValid (originalEnd a) = true ->
  exists flag a',
    AudioData.SetTrimWindow a aTrim = Done (flag, a')
    /\ span_in_bounds a' /\ audio_wf a'.
Proof.
  intros Hw Hwf Hspan Hi Hvoe.
  unfold AudioData.SetTrimWindow.
  destruct (AlignedBuffer.to_bool (AudioData.mAudioData a)) eqn:Ebuf;
    [|exists false, a; auto].
  simpl.
  destruct (TimeUnit.ltb (mStart aTrim) (AudioData.mOriginalTime a)) eqn:Elt;
    [exists false, a; auto|].
  destruct (TimeUnit.gtb (mEnd aTrim) (GetEndTime (AudioData.base a))) eqn:Egt;
    [exists false, a; auto|].
  simpl.
  destruct (TimeUnit.IsValid (TimeUnit.sub (mStart aTrim) (AudioData.mOriginalTime a)))
    eqn:Htb; [|exists false, a; auto].
  destruct (TimeUnit.IsValid (TimeUnit.sub (mEnd aTrim) (AudioData.mOriginalTime a)))
    eqn:Hta; [|exists false, a; auto].
  simpl.
  destruct (AudioData.isNothing (AudioData.mTrimWindow a)
            && TimeUnit.IsZero (TimeUnit.sub (mStart aTrim) (AudioData.mOriginalTime a))
            && TimeUnit.eqb (TimeUnit.sub (mEnd aTrim) (AudioData.mOriginalTime a))
                 (mDuration (AudioData.base a)));
    [exists true, a; auto|].
  destruct (trimmed_range_fits a aTrim Ebuf Hw Hwf Hi Hvoe Elt Egt Htb Hta)
    as (Ho0 & Hf0 & Hsum).
  destruct Hwf as (Hch & Hchu & Hfu & Hfit).
  set (fo := TimeUnit.ToTicksAtRate
               (TimeUnit.sub (mStart aTrim) (AudioData.mOriginalTime a))
               (AudioData.mRate a)) in *.
  set (fc := TimeUnit.ToTicksAtRate
               (TimeUnit.sub (TimeUnit.sub (mEnd aTrim) (AudioData.mOriginalTime a))
                             (TimeUnit.sub (mStart aTrim) (AudioData.mOriginalTime a)))
               (AudioData.mRate a)) in *.
  set (L := AlignedBuffer.Length (AudioData.mAudioData a)) in *.
  assert (Hgt : (fc >? L / AudioData.mChannels a) = false).
  { rewrite Z.gtb_ltb. apply Z.ltb_ge. lia. }
  rewrite Hgt.
  assert (Hfcu : is_uint32 fc) by (unfold is_uint32; lia).
  assert (Hfo : to_size_t fo = fo).
  { apply to_size_t_id. unfold UINT32_MAX in *. lia. }
  assert (Hoff : to_size_t (fo * AudioData.mChannels a) = fo * AudioData.mChannels a).
  { apply to_size_t_id. unfold is_uint32, UINT32_MAX in *. nia. }
  assert (Hmul : AudioData.mChannels a * (L / AudioData.mChannels a) <= L)
    by (apply Z.mul_div_le; exact Hch).
  eexists. eexists. split; [reflexivity|].
  unfold span_in_bounds, audio_wf. simpl.
  rewrite Hfo, Hoff, (to_uint32_id _ Hfcu).
  fold L. repeat split; try assumption; try lia; try nia.
  all: unfold is_uint32 in *; try lia; try nia.
Qed.

(** Witness for X11: the stereo frame and the interval [20ms, 60ms). *)
Lemma SetTrimWindow_stays_in_bounds_witness :
  exists flag a',
    AudioData.SetTrimWindow stereo_frame trim_20_60 = Done (flag, a')
    /\ span_in_bounds a' /\ audio_wf a'.
Proof.
  apply (SetTrimWindow_stays_in_bounds stereo_frame trim_20_60).
  - unfold within_original, audio_bases_positive.
    intros _. repeat split; vm_compute; reflexivity.
  - unfold audio_wf, is_uint32. repeat split; vm_compute; congruence.
  - unfold span_in_bounds. repeat split; vm_compute; congruence.
  - unfold interval_wf. repeat split; vm_compute; reflexivity.
  - vm_compute. reflexivity.
Defined.

(** X12.  A frame SetTrimWindow has trimmed (the times having positive
    bases) carries the interval as its trim window, its duration is its
    frame count over its rate, and its timestamp, when valid, is exactly the
    start of the interval; when the start of the interval is not after its
    end, its frame count spans no more time than the interval.  Otherwise
    (the shortcut for the full range) the call has changed nothing. *)
Theorem SetTrimWindow_result_within_window a aTrim a' :
  audio_bases_positive a ->
  0 < TimeUnit.mBase (mStart aTrim) -> 0 < TimeUnit.mBase (mEnd aTrim) ->
  AudioData.SetTrimWindow a aTrim = Done (true, a') ->
  a' = a
  \/ (AudioData.mTrimWindow a' = Some aTrim
      /\ mDuration (AudioData.base a')
         = TimeUnit.make (AudioData.mFrames a') (AudioData.mRate a')
      /\ is_uint32 (AudioData.mFrames a')
      /\ (TimeUnit.IsValid (mTime (AudioData.base a')) = true ->
          (TimeUnit.toQ (mTime (AudioData.base a'))
           == TimeUnit.toQ (mStart aTrim))%Q)
      /\ (TimeUnit.leb (mStart aTrim) (mEnd aTrim) = true ->
          (Qmake (AudioData.mFrames a') (Z.to_pos (AudioData.mRate a'))
           <= TimeUnit.toQ (mEnd aTrim) - TimeUnit.toQ (mStart aTrim))%Q)).
Proof.
  intros Hpos Hbs Hbe Hrun.
  pose proof Hpos as (Hbt & Hbd & Hbo & Hr).
  unfold AudioData.SetTrimWindow in Hrun.
  destruct (negb (AlignedBuffer.to_bool (AudioData.mAudioData a)));
    [discriminate|].
  destruct (TimeUnit.ltb (mStart aTrim) (AudioData.mOriginalTime a)
            || TimeUnit.gtb (mEnd aTrim) (GetEndTime (AudioData.base a)));
    [discriminate|].
  destruct (negb (TimeUnit.IsValid (TimeUnit.sub (mStart aTrim) (AudioData.mOriginalTime a)))
            || negb (TimeUnit.IsValid (TimeUnit.sub (mEnd aTrim) (AudioData.mOriginalTime a))))
    eqn:Eov; [discriminate|].
  apply orb_false_iff in Eov. destruct Eov as [Htb Hta].
  apply negb_false_iff in Htb, Hta.
  destruct (AudioData.isNothing (AudioData.mTrimWindow a)
            && TimeUnit.IsZero (TimeUnit.sub (mStart aTrim) (AudioData.mOriginalTime a))
            && TimeUnit.eqb (TimeUnit.sub (mEnd aTrim) (AudioData.mOriginalTime a))
                 (mDuration (AudioData.base a)));
    [injection Hrun as <-; left; reflexivity|].
  right.
  assert (Hfit : TimeUnit.leb (mStart aTrim) (mEnd aTrim) = true ->
                 0 <= TimeUnit.ToTicksAtRate
                        (TimeUnit.sub
                           (TimeUnit.sub (mEnd aTrim) (AudioData.mOriginalTime a))
                           (TimeUnit.sub (mStart aTrim) (AudioData.mOriginalTime a)))
                        (AudioData.mRate a)
                 /\ (Qmake (TimeUnit.ToTicksAtRate
                              (TimeUnit.sub
                                 (TimeUnit.sub (mEnd aTrim) (AudioData.mOriginalTime a))
                                 (TimeUnit.sub (mStart aTrim) (AudioData.mOriginalTime a)))
                              (AudioData.mRate a))
                           (Z.to_pos (AudioData.mRate a))
                     <= TimeUnit.toQ (mEnd aTrim) - TimeUnit.toQ (mStart aTrim))%Q).
  { intros Hle.
    exact (trimmed_frames_fit _ aTrim _ Hbo Hr (conj Hbs (conj Hbe Hle)) Htb Hta). }
  set (tb := TimeUnit.sub (mStart aTrim) (AudioData.mOriginalTime a)) in *.
  set (ta := TimeUnit.sub (mEnd aTrim) (AudioData.mOriginalTime a)) in *.
  set (fc := TimeUnit.ToTicksAtRate (TimeUnit.sub ta tb) (AudioData.mRate a)) in *.
  assert (Hbtb : 0 < TimeUnit.mBase tb) by (apply sub_base; assumption).
  pose proof (sub_toQ _ _ Hbs Hbo Htb) as Qtb. fold tb in Qtb.
  assert (Htime : TimeUnit.IsValid (TimeUnit.add (AudioData.mOriginalTime a) tb) = true ->
                  (TimeUnit.toQ (TimeUnit.add (AudioData.mOriginalTime a) tb)
                   == TimeUnit.toQ (mStart aTrim))%Q).
  { intros Hv. rewrite (add_toQ _ _ Hbo Hbtb Hv), Qtb. ring. }
  destruct (fc >? AlignedBuffer.Length (AudioData.mAudioData a) / AudioData.mChannels a).
  - destruct (TimeUnit.IsBase tb (AudioData.mRate a)); [discriminate|].
    injection Hrun as <-. simpl.
    assert (H0 : (Qmake 0 (Z.to_pos (AudioData.mRate a)) == 0)%Q) by reflexivity.
    split; [reflexivity|]. split; [reflexivity|].
    split; [unfold is_uint32, UINT32_MAX; lia|].
    split; [exact Htime|].
    intros Hle. apply (leb_Qle _ _ Hbs Hbe) in Hle. rewrite H0. lra.
  - injection Hrun as <-. simpl.
    split; [reflexivity|]. split; [reflexivity|].
    split; [apply to_uint32_range|].
    split; [exact Htime|].
    intros Hle. destruct (Hfit Hle) as [Hf0 Hf1].
    eapply Qle_trans; [|exact Hf1].
    apply Qmake_le_num. apply to_uint32_le. exact Hf0.
Qed.

(** Witness for X12: the stereo frame trimmed to [20ms, 60ms). *)
Lemma SetTrimWindow_result_within_window_witness :
  stereo_frame_trimmed = stereo_frame
  \/ (AudioData.mTrimWindow stereo_frame_trimmed = Some trim_20_60
      /\ mDuration (AudioData.base stereo_frame_trimmed)
         = TimeUnit.make (AudioData.mFrames stereo_frame_trimmed)
                         (AudioData.mRate stereo_frame_trimmed)
      /\ is_uint32 (AudioData.mFrames stereo_frame_trimmed)
      /\ (TimeUnit.IsValid (mTime (AudioData.base stereo_frame_trimmed)) = true ->
          (TimeUnit.toQ (mTime (AudioData.base stereo_frame_trimmed))
           == TimeUnit.toQ (mStart trim_20_60))%Q)
      /\ (TimeUnit.leb (mStart trim_20_60) (mEnd trim_20_60) = true ->
          (Qmake (AudioData.mFrames stereo_frame_trimmed)
                 (Z.to_pos (AudioData.mRate stereo_frame_trimmed))
           <= TimeUnit.toQ (mEnd trim_20_60) - TimeUnit.toQ (mStart trim_20_60))%Q)).
Proof.
  apply (SetTrimWindow_result_within_window stereo_frame trim_20_60
           stereo_frame_trimmed).
  - unfold audio_bases_positive. repeat split; vm_compute; reflexivity.
  - reflexivity.
  - reflexivity.
  - vm_compute. reflexivity.
Defined.

(** Witness for X13: the stereo frame trimmed to [20ms, 60ms). *)
Lemma SetTrimWindow_within_original_witness :
  within_original stereo_frame_trimmed.
Proof.
  apply (SetTrimWindow_within_original stereo_frame trim_20_60 true
           stereo_frame_trimmed).
  - unfold within_original, audio_bases_positive.
    intros _. repeat split; vm_compute; reflexivity.
  - unfold interval_wf. repeat split; vm_compute; reflexivity.
  - vm_compute. reflexivity.
  - vm_compute. reflexivity.
Defined.

(** Witness for X14: the trimmed stereo frame and a start time of 5 ms. *)
Lemma AdjustForStartTime_within_original_witness :
  within_original (snd (AudioData.AdjustForStartTime stereo_frame_trimmed (usecs 5000))).
Proof.
  apply (AdjustForStartTime_within_original stereo_frame_trimmed (usecs 5000)).
  - unfold within_original, audio_bases_positive.
    intros _. repeat split; vm_compute; reflexivity.
  - reflexivity.
  - vm_compute. reflexivity.
  - vm_compute. reflexivity.
  - vm_compute. reflexivity.
  - vm_compute. reflexivity.
Defined.

(** Witness for X15: the stereo frame moved to 1 ms. *)
Lemma SetOriginalStartTime_within_original_witness :
  within_original (AudioData.SetOriginalStartTime stereo_frame (usecs 1000)).
Proof.
  apply (SetOriginalStartTime_within_original stereo_frame (usecs 1000)).
  - unfold within_original, audio_bases_positive.
    intros _. repeat split; vm_compute; reflexivity.
  - reflexivity.
  - vm_compute. reflexivity.
  - vm_compute. reflexivity.
  - vm_compute. reflexivity.
  - vm_compute. reflexivity.
  - vm_compute. reflexivity.
Defined.

(* ------------------------------------------------------------------ *)
(** ** AudioData: construction and the samples handed out *)

(** X16.  A frame the constructor builds from 32-bit channel count and rate
    has not been trimmed, starts at its original time, lies within its
    original range, and the samples Data() spans (frames * channels from
    offset 0) lie inside its buffer; samples beyond the last whole frame are
    left out. *)
Theorem ctor_establishes_invariants aOffset aTime aData aChannels aRate aChannelMap a :
  is_uint32 aChannels -> is_uint32 aRate -> 0 < TimeUnit.mBase aTime ->
  AudioData.ctor aOffset aTime aData aChannels aRate aChannelMap = Done a ->
  within_original a
  /\ span_in_bounds a
  /\ AudioData.mTrimWindow a = None
  /\ AudioData.mDataOffset a = 0
  /\ mTime (AudioData.base a) = AudioData.mOriginalTime a
  /\ AudioData.mFrames a * AudioData.mChannels a
     <= AlignedBuffer.Length aData
  /\ (AlignedBuffer.Length aData / aChannels <= UINT32_MAX ->
      AlignedBuffer.Length aData
      < AudioData.mFrames a * AudioData.mChannels a + aChannels).
Proof.
  intros Hc Hr Hb Hrun.
  destruct (ctor_within_original _ _ _ _ _ _ _ Hb (proj1 Hr) Hrun)
    as (Hw & Htrim & Htime & _).
  unfold AudioData.ctor in Hrun.
  destruct (Z.eqb_spec aChannels 0) as [E|Hc0]; [discriminate|].
  destruct (Z.eqb_spec aRate 0); [discriminate|].
  injection Hrun as <-.
  assert (Hcpos : 0 < aChannels) by (unfold is_uint32 in Hc; lia).
  assert (HL : 0 <= AlignedBuffer.Length aData / aChannels).
  { apply Z.div_pos; [unfold AlignedBuffer.Length; lia | exact Hcpos]. }
  pose proof (to_uint32_le _ HL) as Hle.
  pose proof (to_uint32_range (AlignedBuffer.Length aData / aChannels)) as Hu.
  pose proof (Z.mul_div_le (AlignedBuffer.Length aData) aChannels Hcpos) as Hm.
  split; [exact Hw|]. unfold span_in_bounds. simpl in *.
  unfold is_uint32 in Hu.
  repeat split; try reflexivity; try lia; try nia.
  intros Hfit. rewrite to_uint32_id by (split; assumption).
  pose proof (Z.mod_pos_bound (AlignedBuffer.Length aData) aChannels Hcpos).
  pose proof (Z.div_mod (AlignedBuffer.Length aData) aChannels).
  nia.
Qed.

(** Witness for X16: the stereo frame. *)
Lemma ctor_establishes_invariants_witness :
  within_original stereo_frame
  /\ span_in_bounds stereo_frame
  /\ AudioData.mTrimWindow stereo_frame = None
  /\ AudioData.mDataOffset stereo_frame = 0
  /\ mTime (AudioData.base stereo_frame) = AudioData.mOriginalTime stereo_frame
  /\ AudioData.mFrames stereo_frame * AudioData.mChannels stereo_frame
     <= AlignedBuffer.Length stereo_samples
  /\ (AlignedBuffer.Length stereo_samples / 2 <= UINT32_MAX ->
      AlignedBuffer.Length stereo_samples
      < AudioData.mFrames stereo_frame * AudioData.mChannels stereo_frame + 2).
Proof.
  apply (ctor_establishes_invariants 0 TimeUnit.Zero stereo_samples 2 48000 3
           stereo_frame).
  - unfold is_uint32, UINT32_MAX. lia.
  - unfold is_uint32, UINT32_MAX. lia.
  - reflexivity.
  - vm_compute. reflexivity.
Defined.

Lemma Length_skipn {T} (b : list T) (n : Z) :
  0 <= n <= AlignedBuffer.Length b ->
  AlignedBuffer.Length (skipn (Z.to_nat n) b) = AlignedBuffer.Length b - n.
Proof.
  unfold AlignedBuffer.Length. intros H. rewrite length_skipn. lia.
Qed.

(** X17.  On a frame whose samples lie inside its buffer, MoveableData hands
    out exactly the samples Data() spans: a buffer as long as the span,
    whose k-th sample is the sample at data offset + k of the frame's
    buffer; no allocation is involved. *)
Theorem MoveableData_hands_out_span aAllocOk (a : AudioData.t) :
  span_in_bounds a -> 0 <= AudioData.mChannels a ->
  let out := fst (AudioData.MoveableData aAllocOk a) in
  let n := extent (AudioData.Data a) in
  out = firstn (Z.to_nat n)
          (skipn (Z.to_nat (AudioData.mDataOffset a)) (AudioData.mAudioData a))
  /\ AlignedBuffer.Length out = n
  /\ (forall k, 0 <= k < n ->
        nth (Z.to_nat k) out 0
        = nth (Z.to_nat (AudioData.mDataOffset a + k)) (AudioData.mAudioData a) 0).
Proof.
  intros (Ho & Hf & Hb) Hc. cbv zeta.
  unfold AudioData.MoveableData, AudioData.Data. cbn [fst extent].
  set (n := to_uint32 (AudioData.mFrames a * AudioData.mChannels a)).
  assert (Hfc : 0 <= AudioData.mFrames a * AudioData.mChannels a) by nia.
  pose proof (to_uint32_le _ Hfc) as Hn. fold n in Hn.
  pose proof (to_uint32_range (AudioData.mFrames a * AudioData.mChannels a)) as Hn0.
  fold n in Hn0. unfold is_uint32 in Hn0.
  unfold AlignedBuffer.SetLength, AlignedBuffer.PopFront.
  assert (HL : AlignedBuffer.Length
                 (skipn (Z.to_nat (AudioData.mDataOffset a)) (AudioData.mAudioData a))
               = AlignedBuffer.Length (AudioData.mAudioData a) - AudioData.mDataOffset a).
  { apply Length_skipn. unfold AlignedAudioBuffer, AudioDataValue, AlignedBuffer.t in *.
    lia. }
  unfold AlignedAudioBuffer, AudioDataValue, AlignedBuffer.t in *.
  match goal with
  | |- context [n <=? ?len] =>
      destruct (Z.leb_spec n len) as [Hle|Hgt]; [|exfalso; lia]
  end.
  cbn [fst]. split; [reflexivity|]. split.
  - unfold AlignedBuffer.Length in *. rewrite length_firstn. lia.
  - intros k Hk. rewrite nth_firstn.
    destruct (Nat.ltb_spec (Z.to_nat k) (Z.to_nat n)) as [_|Hge]; [|lia].
    rewrite nth_skipn. f_equal. lia.
Qed.

(** Witness for X17: the trimmed stereo frame. *)
Lemma MoveableData_hands_out_span_witness :
  let out := fst (AudioData.MoveableData false stereo_frame_trimmed) in
  let n := extent (AudioData.Data stereo_frame_trimmed) in
  out = firstn (Z.to_nat n)
          (skipn (Z.to_nat (AudioData.mDataOffset stereo_frame_trimmed))
                 (AudioData.mAudioData stereo_frame_trimmed))
  /\ AlignedBuffer.Length out = n
  /\ (forall k, 0 <= k < n ->
        nth (Z.to_nat k) out 0
        = nth (Z.to_nat (AudioData.mDataOffset stereo_frame_trimmed + k))
              (AudioData.mAudioData stereo_frame_trimmed) 0).
Proof.
  apply (MoveableData_hands_out_span false stereo_frame_trimmed).
  - unfold span_in_bounds. repeat split; vm_compute; congruence.
  - vm_compute. congruence.
Defined.

(* ------------------------------------------------------------------ *)
(** ** AudioData::EnsureAudioBuffer *)

Lemma store_length {T} (l : list T) n v : List.length (store l n v) = List.length l.
Proof.
  revert n. induction l as [|h t IH]; intros [|n]; simpl; auto.
Qed.

Lemma nth_store_eq {T} (l : list T) n v d :
  (n < List.length l)%nat -> nth n (store l n v) d = v.
Proof.
  revert n. induction l as [|h t IH]; intros [|n] H; simpl in *; try lia.
  - reflexivity.
  - apply IH. lia.
Qed.

Lemma nth_store_neq {T} (l : list T) m n v d :
  m <> n -> nth m (store l n v) d = nth m l d.
Proof.
  revert m n. induction l as [|h t IH]; intros [|m] [|n] H; simpl; auto.
  - congruence.
Qed.

Section FoldStore.

Context {K T : Type}.
Variable idx : K -> nat.
Variable val : K -> T.

Lemma fold_store_length ks (d : list T) :
  List.length (fold_left (fun d k => store d (idx k) (val k)) ks d)
  = List.length d.
Proof.
  revert d. induction ks as [|k ks IH]; intros d; simpl.
  - reflexivity.
  - rewrite IH. apply store_length.
Qed.

Lemma fold_store_other ks (d : list T) n x :
  (forall k, In k ks -> idx k <> n) ->
  nth n (fold_left (fun d k => store d (idx k) (val k)) ks d) x = nth n d x.
Proof.
  revert d. induction ks as [|k ks IH]; intros d H; simpl.
  - reflexivity.
  - rewrite IH by (intros k' Hk'; apply H; right; exact Hk').
    apply nth_store_neq. intros E. apply (H k); [left; reflexivity | auto].
Qed.

Lemma fold_store_hit ks (d : list T) k x :
  In k ks ->
  (forall k', In k' ks -> idx k' = idx k -> val k' = val k) ->
  (idx k < List.length d)%nat ->
  nth (idx k) (fold_left (fun d k => store d (idx k) (val k)) ks d) x = val k.
Proof.
  revert d k. induction ks as [|k0 ks IH]; intros d k Hin Hsame Hlt; simpl.
  - destruct Hin.
  - destruct (in_dec Nat.eq_dec (idx k) (map idx ks)) as [Hlater|Hnot].
    + apply in_map_iff in Hlater. destruct Hlater as (k' & Ek' & Hk').
      pose proof (Hsame k' (or_intror Hk') Ek') as Ev.
      rewrite <- Ek', <- Ev.
      apply IH.
      * exact Hk'.
      * intros k'' Hk'' E. rewrite Ev.
        apply Hsame; [right; exact Hk'' | congruence].
      * rewrite store_length. rewrite Ek'. exact Hlt.
    + rewrite fold_store_other.
      * destruct Hin as [-> | Hin].
        -- apply nth_store_eq. exact Hlt.
        -- exfalso. apply Hnot. apply in_map. exact Hin.
      * intros k' Hk' E. apply Hnot. rewrite <- E. apply in_map. exact Hk'.
Qed.

End FoldStore.

Lemma fold_left_map {A B C} (f : A -> C -> A) (h : B -> C) l a :
  fold_left f (map h l) a = fold_left (fun a x => f a (h x)) l a.
Proof.
  revert a. induction l as [|x l IH]; intros a; simpl; auto.
Qed.

Lemma fold_left_nested {A B C} (g : A -> B -> C -> A) (l1 : list B) (l2 : list C) a :
  fold_left (fun a i => fold_left (fun a j => g a i j) l2 a) l1 a
  = fold_left (fun a p => g a (fst p) (snd p)) (list_prod l1 l2) a.
Proof.
  revert a. induction l1 as [|i l1 IH]; intros a; simpl.
  - reflexivity.
  - rewrite fold_left_app, fold_left_map. simpl. apply IH.
Qed.

Lemma in_range n k : In k (range n) <-> 0 <= k < n.
Proof.
  unfold range. rewrite in_map_iff. split.
  - intros (m & <- & Hm). apply in_seq in Hm. lia.
  - intros H. exists (Z.to_nat k). split; [lia|]. apply in_seq. lia.
Qed.

Lemma planar_index_inj F i j i' j' :
  0 <= i < F -> 0 <= i' < F -> 0 <= j -> 0 <= j' ->
  j * F + i = j' * F + i' -> i = i' /\ j = j'.
Proof.
  intros Hi Hi' Hj Hj' E.
  assert (j = j') by nia. subst j'. split; [lia | reflexivity].
Qed.

Lemma planar_index_bound F C i j :
  0 <= i < F -> 0 <= j < C -> F * C <= UINT32_MAX ->
  0 <= j * F + i < F * C /\ 0 <= i * C + j < F * C
  /\ to_uint32 (j * F + i) = j * F + i
  /\ to_uint32 (i * C + j) = i * C + j.
Proof.
  intros Hi Hj Hfit.
  assert (H1 : 0 <= j * F + i < F * C) by nia.
  assert (H2 : 0 <= i * C + j < F * C) by nia.
  repeat split; try lia; apply to_uint32_id; unfold is_uint32; lia.
Qed.

(** X18.  On a frame that holds its buffer, whose samples lie inside it and
    whose sample count fits 32 bits, EnsureAudioBuffer builds the planar copy
    of the interleaved samples: a buffer of frames * channels samples in
    which sample i of channel j, at index j * frames + i, is the sample at
    index i * channels + j after the data offset of the frame's buffer.  A
    planar copy that exists already is kept as it is. *)
Theorem EnsureAudioBuffer_deinterleaves (a : AudioData.t) :
  AlignedBuffer.to_bool (AudioData.mAudioData a) = true ->
  span_in_bounds a -> 0 <= AudioData.mChannels a ->
  AudioData.mFrames a * AudioData.mChannels a <= UINT32_MAX ->
  (exists planar,
     EnsureAudioBuffer a None = Done (Some planar)
     /\ AlignedBuffer.Length planar = AudioData.mFrames a * AudioData.mChannels a
     /\ forall i j,
          0 <= i < AudioData.mFrames a -> 0 <= j < AudioData.mChannels a ->
          nth (Z.to_nat (j * AudioData.mFrames a + i)) planar 0
          = nth (Z.to_nat (AudioData.mDataOffset a + (i * AudioData.mChannels a + j)))
                (AudioData.mAudioData a) 0)
  /\ (forall b, EnsureAudioBuffer a (Some b) = Done (Some b)).
Proof.
  intros Hbuf (Ho & Hf & Hb) Hc Hfit.
  split; [|reflexivity].
  unfold EnsureAudioBuffer. rewrite Hbuf. cbn [negb].
  set (F := AudioData.mFrames a) in *. set (C := AudioData.mChannels a) in *.
  assert (Hfc : 0 <= F * C) by nia.
  assert (Esize : Checked.make 0 SIZE_MAX (sizeof_AudioDataValue * F * C)
                  = Some (sizeof_AudioDataValue * F * C)).
  { apply make_Some. unfold SIZE_MAX, sizeof_AudioDataValue, UINT32_MAX in *.
    split; [nia | reflexivity]. }
  rewrite Esize.
  assert (Ediv : sizeof_AudioDataValue * F * C / sizeof_AudioDataValue = F * C).
  { unfold sizeof_AudioDataValue.
    replace (4 * F * C) with (F * C * 4) by ring. apply Z.div_mul. lia. }
  rewrite Ediv.
  rewrite (fold_left_nested
             (fun dest i j =>
                store dest (Z.to_nat (to_uint32 (j * F + i)))
                  (nth (Z.to_nat (AudioData.mDataOffset a + to_uint32 (i * C + j)))
                       (AudioData.mAudioData a) 0))).
  set (idx := fun p : Z * Z => Z.to_nat (to_uint32 (snd p * F + fst p))).
  set (val := fun p : Z * Z =>
                nth (Z.to_nat (AudioData.mDataOffset a + to_uint32 (fst p * C + snd p)))
                    (AudioData.mAudioData a) 0).
  change (fun (a0 : list AudioDataValue) (p : Z * Z) =>
            store a0 (Z.to_nat (to_uint32 (snd p * F + fst p)))
              (nth (Z.to_nat (AudioData.mDataOffset a + to_uint32 (fst p * C + snd p)))
                   (AudioData.mAudioData a) 0))
    with (fun (d : list AudioDataValue) (k : Z * Z) => store d (idx k) (val k)).
  eexists. split; [reflexivity|]. split.
  - unfold AlignedBuffer.Length. rewrite fold_store_length, repeat_length. lia.
  - intros i j Hi Hj.
    destruct (planar_index_bound F C i j Hi Hj Hfit) as (H1 & H2 & E1 & E2).
    replace (Z.to_nat (j * F + i)) with (idx (i, j))
      by (unfold idx; simpl; rewrite E1; reflexivity).
    rewrite fold_store_hit.
    + unfold val. simpl. rewrite E2. reflexivity.
    + apply in_prod; apply in_range; assumption.
    + intros [i' j'] Hin E. apply in_prod_iff in Hin. destruct Hin as [Hi' Hj'].
      apply in_range in Hi', Hj'.
      destruct (planar_index_bound F C i' j' Hi' Hj' Hfit) as (H1' & _ & E1' & _).
      unfold idx in E. simpl in E. rewrite E1, E1' in E.
      assert (E' : j' * F + i' = j * F + i) by lia.
      destruct (planar_index_inj F i' j' i j) as [Ei Ej]; try lia.
      subst i' j'. reflexivity.
    + rewrite repeat_length. unfold idx. simpl. rewrite E1. lia.
Qed.

(** Witness for X18: three stereo frames L0 R0 L1 R1 L2 R2 become
    L0 L1 L2 R0 R1 R2. *)
Lemma EnsureAudioBuffer_deinterleaves_witness :
  EnsureAudioBuffer small_frame None = Done (Some [10; 11; 12; 20; 21; 22])
  /\ ((exists planar,
         EnsureAudioBuffer small_frame None = Done (Some planar)
         /\ AlignedBuffer.Length planar
            = AudioData.mFrames small_frame * AudioData.mChannels small_frame
         /\ forall i j,
              0 <= i < AudioData.mFrames small_frame ->
              0 <= j < AudioData.mChannels small_frame ->
              nth (Z.to_nat (j * AudioData.mFrames small_frame + i)) planar 0
              = nth (Z.to_nat (AudioData.mDataOffset small_frame
                               + (i * AudioData.mChannels small_frame + j)))
                    (AudioData.mAudioData small_frame) 0)
      /\ (forall b, EnsureAudioBuffer small_frame (Some b) = Done (Some b))).
Proof.
  split; [reflexivity|].
  apply (EnsureAudioBuffer_deinterleaves small_frame).
  - reflexivity.
  - unfold span_in_bounds. repeat split; vm_compute; congruence.
  - vm_compute. congruence.
  - apply Z.leb_le. reflexivity.
Defined.
